(** * redux-playground: the async-thunk demo and its fixture generator

    A shallow embedding of [mocks/server.ts] (fixture generator) and of
    [src/demos/async-thunks/ThunkDemo.tsx] (mock API, thunks, slice and the
    sequential fetch handler), with the properties the specification states
    about them.

    The JavaScript run time is made explicit:
    - numbers are IEEE-754 doubles; the integer-valued ones are carried as
      [Z], with the rounding of [+] and [*] written out;
    - [Math.random], the clock and [fetch] are oracles of a [World], read
      through counters kept in the state;
    - a rejected promise / thrown value is the [Throw] result of the monad
      [M]; [await] is sequencing. *)

From Stdlib Require Import ZArith List String Ascii Bool Lia DecimalString.
From Stdlib Require DecimalZ.
Import ListNotations.
Open Scope Z_scope.

(* ================================================================== *)
(** ** JavaScript numbers *)
(* ================================================================== *)

Module JsNum.

(** A number as the demo meets it: an integer-valued double, or NaN
    (what [parseInt] yields on text without digits). *)
Inductive Num : Type :=
| NInt (z : Z)
| NaN.

Definition num_eqb (a b : Num) : bool :=
  match a, b with
  | NInt x, NInt y => x =? y
  | _, _ => false            (* NaN === anything is false *)
  end.

(** [a > b] *)
Definition num_gtb (a b : Num) : bool :=
  match a, b with
  | NInt x, NInt y => y <? x
  | _, _ => false
  end.

(** [a % b]: the remainder takes the sign of the dividend; [x % 0] and
    anything on NaN is NaN. *)
Definition num_rem (a b : Num) : Num :=
  match a, b with
  | NInt x, NInt y => if y =? 0 then NaN else NInt (Z.rem x y)
  | _, _ => NaN
  end.

(** [a / 2^k] rounded to the nearest integer, ties to the even one
    ([0 <= a], [0 < k]). *)
Definition round_half_even (a k : Z) : Z :=
  let q := Z.shiftr a k in
  let r := Z.land a (Z.ones k) in
  let half := Z.shiftl 1 (k - 1) in
  if r <? half then q
  else if half <? r then q + 1
  else if Z.even q then q else q + 1.

(** A non-negative double [mant * 2^expo]. *)
Record Dyadic : Type := mkDyadic { mant : Z; expo : Z }.

(** The double nearest to [m * 2^e] ([0 <= m]): keep 53 significant bits,
    round to nearest, ties to even.  (No overflow or underflow arises for
    the magnitudes of this program.) *)
Definition round_to_double (m e : Z) : Dyadic :=
  let k := Z.log2 m - 52 in
  if k <=? 0 then mkDyadic m e
  else mkDyadic (round_half_even m k) (e + k).

(** [d * c] for an integer constant [c]. *)
Definition mul_int (d : Dyadic) (c : Z) : Dyadic :=
  round_to_double (mant d * c) (expo d).

(** [Math.floor(d)]. *)
Definition floor (d : Dyadic) : Z :=
  Z.shiftr (mant d) (- expo d).

(** The double nearest to the integer [z]. *)
Definition round_int (z : Z) : Z :=
  let k := Z.log2 (Z.abs z) - 52 in
  if k <=? 0 then z
  else Z.sgn z * Z.shiftl (round_half_even (Z.abs z) k) k.

(** [a + b] on integer-valued doubles. *)
Definition js_add (a b : Z) : Z := round_int (a + b).

(** What [Math.random()] may return: a double in [[0, 1)].  Such a
    double is [m * 2^e] with [0 <= m < 2^53] and [-1074 <= e <= -53]
    (a normal one in [[2^(e+52), 2^(e+53))] has [2^52 <= m], a subnormal
    one has [e = -1074]), and every such pair is one. *)
Definition valid_draw (d : Dyadic) : Prop :=
  0 <= mant d < 2 ^ 53 /\ -1074 <= expo d <= -53.

(** What the clock may return: an ECMAScript time value, in
    milliseconds since the epoch. *)
Definition valid_time (t : Z) : Prop :=
  - 8640000000000000 <= t <= 8640000000000000.

End JsNum.
Export JsNum.

(* ================================================================== *)
(** ** JavaScript strings *)
(* ================================================================== *)

Module JsStr.
Local Open Scope string_scope.

Definition lower_ascii (c : ascii) : ascii :=
  let n := nat_of_ascii c in
  if (Nat.leb 65 n && Nat.leb n 90)%bool then ascii_of_nat (n + 32) else c.

(** [s.toLowerCase()] (the strings of this program are ASCII). *)
Fixpoint toLowerCase (s : string) : string :=
  match s with
  | EmptyString => EmptyString
  | String c s' => String (lower_ascii c) (toLowerCase s')
  end.

(** [s.replace(pat, rep)] with a string pattern: only the FIRST
    occurrence of [pat] is replaced ([rep] holds no [$] pattern here). *)
Fixpoint replace (pat rep s : string) : string :=
  if prefix pat s
  then rep ++ substring (length pat) (length s - length pat)%nat s
  else match s with
       | EmptyString => EmptyString
       | String c s' => String c (replace pat rep s')
       end.

(** [`${n}`] for a number: decimal digits for an integer (below
    [10^21] in magnitude, where JavaScript switches to exponent
    notation), ["NaN"] for NaN. *)
Definition number_to_string (n : Num) : string :=
  match n with
  | NInt z => NilZero.string_of_int (Z.to_int z)
  | NaN => "NaN"
  end.

(** [`${x}`] for a string that may be [undefined]. *)
Definition string_or_undefined (x : option string) : string :=
  match x with
  | Some s => s
  | None => "undefined"
  end.

(** [x || y] on strings: [undefined] and the empty string are falsy. *)
Definition or_else (x : option string) (y : string) : string :=
  match x with
  | Some EmptyString | None => y
  | Some s => s
  end.

(** [l[i]]: [undefined] outside [0 .. length-1] and at NaN. *)
Definition index {A : Type} (l : list A) (i : Num) : option A :=
  match i with
  | NInt z => if (z <? 0)%Z then None else nth_error l (Z.to_nat z)
  | NaN => None
  end.

(** [l.length] *)
Definition len {A : Type} (l : list A) : Num := NInt (Z.of_nat (List.length l)).

End JsStr.
Export JsStr.

(* ================================================================== *)
(** ** Data model: the interfaces of mocks/server.ts and the slice state *)
(* ================================================================== *)

(** [interface User].  A field marked [?] in the source is an [option].
    [createdAt] holds the instant whose ISO-8601 rendering
    ([toISOString]) the source stores. *)
Module User.
Record t : Type := mk {
  id : Num;
  name : string;
  email : string;
  phone : option string;
  website : option string;
  company : option string;
  posts : option Z;
  createdAt : option Z
}.
End User.

(** [interface Post].  [title] and [body] are looked up in a pool and are
    [undefined] ([None]) when the index misses it. *)
Module Post.
Record t : Type := mk {
  id : Num;
  userId : Num;
  title : option string;
  body : option string;
  createdAt : option Z
}.
End Post.

(** [initialState] of [usersSlice] gives the shape of the slice state. *)
Record UsersState : Type := mkUsersState {
  currentUser : option User.t;
  userPosts : list Post.t;
  loading : bool;
  postsLoading : bool;
  error : option string;
  postsError : option string
}.

(** The actions the slice reacts to: its two reducers and the three
    lifecycle actions of each thunk. *)
Inductive Action : Type :=
| clearUser
| clearErrors
| fetchUserById_pending
| fetchUserById_fulfilled (payload : User.t)
| fetchUserById_rejected (payload : option string)
| fetchUserPosts_pending
| fetchUserPosts_fulfilled (payload : list Post.t)
| fetchUserPosts_rejected (payload : option string).

(* ================================================================== *)
(** ** Run time: effects of the program *)
(* ================================================================== *)

Module Runtime.

(** A thrown value (a rejected promise's reason): an [Error] object
    with its message, or a bare payload, as [unwrap] throws. *)
Inductive Thrown : Type :=
| ErrorObj (message : string)
| Payload (p : option string).

(** A [Response]: its [ok] flag and its body.  A body that parses is
    taken at the interface the endpoint serves ([User] for
    [/users/:id], [Post[]] for [/posts?userId=]); [body = None] is text
    that [response.json()] cannot parse. *)
Record Response (A : Type) : Type := mkResponse {
  ok : bool;
  body : option A
}.
Arguments mkResponse {A} _ _.
Arguments ok {A} _.
Arguments body {A} _.

Inductive FetchOutcome (A : Type) : Type :=
| NetworkError (message : string)      (* [fetch] rejects *)
| Answered (r : Response A).
Arguments NetworkError {A} _.
Arguments Answered {A} _.

(** The two URLs the demo requests:
    [`${MOCK_SERVER_URL}/users/${id}`] and
    [`${MOCK_SERVER_URL}/posts?userId=${userId}`]. *)
Inductive Request : Type :=
| UsersById (id : Num)
| PostsByUser (userId : Num).

Definition MOCK_SERVER_URL : string := "http://localhost:3001".


(** Everything outside the program.  The [n]-th [fetch], the [n]-th
    [Math.random()] and the [n]-th reading of the clock get the answers
    the world gives at [n]. *)
Record World : Type := mkWorld {
  net_user : nat -> Num -> FetchOutcome User.t;
  net_posts : nat -> Num -> FetchOutcome (list Post.t);
  random : nat -> Dyadic;
  clock : nat -> Z
}.

Definition valid_world (w : World) : Prop :=
  forall n, valid_draw (random w n) /\ valid_time (clock w n).

(** What the program does that can be observed, latest last. *)
Inductive Event : Type :=
| ETimeout (ms : Z)                       (* awaited [setTimeout] *)
| EFetch (r : Request)
| EConsoleLog (msg : string)
| EConsoleError (msg : string) (e : Thrown)
| EDispatch (a : Action).                 (* an action reaches the store *)

Record St : Type := mkSt {
  store : UsersState;
  trace : list Event;
  fetches : nat;
  draws : nat;
  ticks : nat
}.

Inductive Res (A : Type) : Type :=
| Ok (a : A)
| Throw (e : Thrown).
Arguments Ok {A} _.
Arguments Throw {A} _.

(** Computations: read the world, thread the state, return or throw. *)
Definition M (A : Type) : Type := World -> St -> Res A * St.

Definition ret {A} (a : A) : M A := fun _ s => (Ok a, s).

Definition throw {A} (e : Thrown) : M A := fun _ s => (Throw e, s).

Definition bind {A B} (m : M A) (k : A -> M B) : M B :=
  fun w s =>
    match m w s with
    | (Ok a, s') => k a w s'
    | (Throw e, s') => (Throw e, s')
    end.

(** [try { m } catch (e) { h e }] *)
Definition try_catch {A} (m : M A) (h : Thrown -> M A) : M A :=
  fun w s =>
    match m w s with
    | (Ok a, s') => (Ok a, s')
    | (Throw e, s') => h e w s'
    end.

Definition emit (e : Event) : M unit :=
  fun _ s => (Ok tt, mkSt (store s) (trace s ++ [e]) (fetches s) (draws s) (ticks s)).

(** [await new Promise(resolve => setTimeout(resolve, ms))] *)
Definition sleep (ms : Z) : M unit := emit (ETimeout ms).

Definition console_log (msg : string) : M unit := emit (EConsoleLog msg).

Definition console_error (msg : string) (e : Thrown) : M unit :=
  emit (EConsoleError msg e).

(** [Math.random()] *)
Definition Math_random : M Dyadic :=
  fun w s => (Ok (random w (draws s)),
              mkSt (store s) (trace s) (fetches s) (S (draws s)) (ticks s)).

(** [Date.now()], and the instant of [new Date()]. *)
Definition Date_now : M Z :=
  fun w s => (Ok (clock w (ticks s)),
              mkSt (store s) (trace s) (fetches s) (draws s) (S (ticks s))).

(** [await fetch(url)]: the request is seen, then the promise settles. *)
Definition fetch {A} (oracle : World -> nat -> FetchOutcome A) (r : Request)
  : M (Response A) :=
  fun w s =>
    let s' := mkSt (store s) (trace s ++ [EFetch r]) (S (fetches s)) (draws s) (ticks s) in
    match oracle w (fetches s) with
    | NetworkError msg => (Throw (ErrorObj msg), s')
    | Answered resp => (Ok resp, s')
    end.

(** [await response.json()] *)
Definition json {A} (resp : Response A) : M A :=
  match body resp with
  | Some a => ret a
  | None => throw (ErrorObj "Unexpected token in JSON")
  end.

(** [error.message] in a [catch] clause: an [Error] has one, a string
    has none, and reading it off [undefined] throws. *)
Definition message_of (e : Thrown) : M (option string) :=
  match e with
  | ErrorObj m => ret (Some m)
  | Payload (Some _) => ret None
  | Payload None => throw (ErrorObj "Cannot read properties of undefined")
  end.

Declare Scope js_scope.
Delimit Scope js_scope with js.
Notation "x <- m ;; k" := (bind m (fun x => k))
  (at level 61, m at next level, right associativity) : js_scope.
Notation "m ;; k" := (bind m (fun _ => k))
  (at level 61, right associativity) : js_scope.

End Runtime.
Export Runtime.
Open Scope js_scope.

(* ================================================================== *)
(** ** mocks/server.ts: the fixture generator *)
(* ================================================================== *)

Module Server.
Local Open Scope string_scope.

(** [generateId]: [Date.now() + Math.floor(Math.random() * 1000)] *)
Definition generateId : M Z :=
  now <- Date_now ;;
  r <- Math_random ;;
  ret (js_add now (floor (mul_int r 1000))).

Definition names : list string :=
  ["Alex Johnson"; "Sam Wilson"; "Taylor Brown"; "Jordan Davis"; "Casey Miller"].

Definition domains : list string :=
  ["example.com"; "test.org"; "demo.net"; "sample.io"; "mock.dev"].

Definition generateMockUser (id : Num) : M User.t :=
  let name :=
    or_else (index names (num_rem id (len names))) ("User " ++ number_to_string id) in
  let email :=
    replace " " "." (toLowerCase name) ++ "@"
      ++ string_or_undefined (index domains (num_rem id (len domains))) in
  r <- Math_random ;;
  now <- Date_now ;;
  ret {| User.id := id;
         User.name := name;
         User.email := email;
         User.phone := None;
         User.website := None;
         User.company := None;
         User.posts := Some (js_add (floor (mul_int r 20)) 1);
         User.createdAt := Some now |}.

Definition titles : list string :=
  ["Understanding React Hooks";
   "Redux Best Practices";
   "Building Modern Web Apps";
   "JavaScript ES6 Features";
   "Async Programming Patterns"].

Definition bodies : list string :=
  ["This is a comprehensive guide to understanding the concepts...";
   "Learn the fundamental principles and best practices...";
   "A deep dive into modern development techniques...";
   "Exploring the latest features and improvements...";
   "Practical examples and real-world applications..."].

Definition generateMockPost (userId postId : Num) : M Post.t :=
  now <- Date_now ;;
  ret {| Post.id := postId;
         Post.userId := userId;
         Post.title := index titles (num_rem postId (len titles));
         Post.body := index bodies (num_rem postId (len bodies));
         Post.createdAt := Some now |}.

End Server.
Export Server.

(* ================================================================== *)
(** ** src/demos/async-thunks/ThunkDemo.tsx *)
(* ================================================================== *)

Module mockApi.
Local Open Scope string_scope.

(** A [return] inside the [try] block leaves the function with [Some]
    value; falling out of the block is [None]. *)
Definition fetchUser (id : Num) : M User.t :=
  sleep 1000 ;;
  (if num_gtb id (NInt 10) then throw (ErrorObj "User not found") else ret tt) ;;
  returned <-
    try_catch
      (response <- fetch (fun w n => net_user w n id) (UsersById id) ;;
       if ok response
       then (u <- json response ;; ret (Some u))
       else ret None)
      (fun error => console_log "Using generated mock data" ;; ret None) ;;
  match returned with
  | Some u => ret u
  | None => generateMockUser id
  end.

(** [for (let i = 1; i <= postCount; i++) posts.push(...)]; the loop
    runs at most [fuel] times. *)
Fixpoint push_posts (fuel : nat) (userId : Num) (postCount i : Z)
         (posts : list Post.t) : M (list Post.t) :=
  match fuel with
  | O => ret posts
  | S fuel' =>
      if (i <=? postCount)%Z
      then now <- Date_now ;;
           p <- generateMockPost userId (NInt (js_add now i)) ;;
           push_posts fuel' userId postCount (js_add i 1) (posts ++ [p])
      else ret posts
  end.

Definition fetchUserPosts (userId : Num) : M (list Post.t) :=
  sleep 800 ;;
  returned <-
    try_catch
      (response <- fetch (fun w n => net_posts w n userId) (PostsByUser userId) ;;
       if ok response
       then (posts <- json response ;;
             if (0 <? Z.of_nat (List.length posts))%Z then ret (Some posts) else ret None)
       else ret None)
      (fun error => console_log "Using generated mock data" ;; ret None) ;;
  match returned with
  | Some posts => ret posts
  | None =>
      r <- Math_random ;;
      let postCount := js_add (floor (mul_int r 5)) 1 in
      push_posts (Z.to_nat postCount) userId postCount 1 []
  end.

End mockApi.

Module ThunkDemo.
Local Open Scope string_scope.

(** *** The slice *)

Definition initialState : UsersState :=
  {| currentUser := None; userPosts := []; loading := false;
     postsLoading := false; error := None; postsError := None |}.

(** Assignments to one field of the draft state. *)
Definition set_currentUser (v : option User.t) (s : UsersState) : UsersState :=
  mkUsersState v (userPosts s) (loading s) (postsLoading s) (error s) (postsError s).
Definition set_userPosts (v : list Post.t) (s : UsersState) : UsersState :=
  mkUsersState (currentUser s) v (loading s) (postsLoading s) (error s) (postsError s).
Definition set_loading (v : bool) (s : UsersState) : UsersState :=
  mkUsersState (currentUser s) (userPosts s) v (postsLoading s) (error s) (postsError s).
Definition set_postsLoading (v : bool) (s : UsersState) : UsersState :=
  mkUsersState (currentUser s) (userPosts s) (loading s) v (error s) (postsError s).
Definition set_error (v : option string) (s : UsersState) : UsersState :=
  mkUsersState (currentUser s) (userPosts s) (loading s) (postsLoading s) v (postsError s).
Definition set_postsError (v : option string) (s : UsersState) : UsersState :=
  mkUsersState (currentUser s) (userPosts s) (loading s) (postsLoading s) (error s) v.

(** [usersSlice.reducer]: [reducers] and [extraReducers], statement by
    statement (the innermost assignment runs first). *)
Definition reducer (state : UsersState) (action : Action) : UsersState :=
  match action with
  | clearUser =>
      set_postsError None (set_error None (set_userPosts [] (set_currentUser None state)))
  | clearErrors =>
      set_postsError None (set_error None state)
  | fetchUserById_pending =>
      set_error None (set_loading true state)
  | fetchUserById_fulfilled payload =>
      set_currentUser (Some payload) (set_loading false state)
  | fetchUserById_rejected payload =>
      set_error payload (set_loading false state)
  | fetchUserPosts_pending =>
      set_postsError None (set_postsLoading true state)
  | fetchUserPosts_fulfilled payload =>
      set_userPosts payload (set_postsLoading false state)
  | fetchUserPosts_rejected payload =>
      set_postsError payload (set_postsLoading false state)
  end.

(** [dispatch(action)] on the store of [configureStore]. *)
Definition dispatch (a : Action) : M unit :=
  fun _ s => (Ok tt, mkSt (reducer (store s) a) (trace s ++ [EDispatch a])
                          (fetches s) (draws s) (ticks s)).

(** *** createAsyncThunk, as the demo relies on it *)

(** What a payload creator returns. *)
Inductive PayloadResult (R : Type) : Type :=
| Value (r : R)
| RejectWithValue (p : option string).
Arguments Value {R} _.
Arguments RejectWithValue {R} _.

(** The action that the promise of [dispatch(thunk(arg))] resolves to;
    that promise never rejects. *)
Inductive Settled (R : Type) : Type :=
| Fulfilled (payload : R)
| Rejected (payload : option string) (rejectedWithValue : bool) (error : string).
Arguments Fulfilled {R} _.
Arguments Rejected {R} _ _ _.

(** Run [m] and hand back how it ended. *)
Definition settle {A} (m : M A) : M (Res A) :=
  fun w s => let (r, s') := m w s in (Ok r, s').

(** The message of a serialized thrown value. *)
Definition serialized_message (e : Thrown) : string :=
  match e with
  | ErrorObj m => m
  | Payload p => string_or_undefined p
  end.

Definition createAsyncThunk {Arg R : Type}
           (pending : Action) (fulfilled : R -> Action)
           (rejected : option string -> Action)
           (payloadCreator : Arg -> M (PayloadResult R))
  : Arg -> M (Settled R) :=
  fun arg =>
    dispatch pending ;;
    r <- settle (payloadCreator arg) ;;
    match r with
    | Ok (Value v) =>
        dispatch (fulfilled v) ;; ret (Fulfilled v)
    | Ok (RejectWithValue p) =>
        dispatch (rejected p) ;; ret (Rejected p true "Rejected")
    | Throw e =>
        dispatch (rejected None) ;; ret (Rejected None false (serialized_message e))
    end.

(** [promise.unwrap()] *)
Definition unwrap {R} (m : M (Settled R)) : M R :=
  a <- m ;;
  match a with
  | Fulfilled v => ret v
  | Rejected p true _ => throw (Payload p)
  | Rejected _ false msg => throw (ErrorObj msg)
  end.

(** *** The thunks *)

Definition fetchUserById_payloadCreator (userId : Num) : M (PayloadResult User.t) :=
  try_catch
    (user <- mockApi.fetchUser userId ;; ret (Value user))
    (fun error => msg <- message_of error ;; ret (RejectWithValue msg)).

Definition fetchUserById : Num -> M (Settled User.t) :=
  createAsyncThunk fetchUserById_pending fetchUserById_fulfilled
                   fetchUserById_rejected fetchUserById_payloadCreator.

Definition fetchUserPosts_payloadCreator (userId : Num) : M (PayloadResult (list Post.t)) :=
  try_catch
    (posts <- mockApi.fetchUserPosts userId ;; ret (Value posts))
    (fun error => msg <- message_of error ;; ret (RejectWithValue msg)).

Definition fetchUserPosts : Num -> M (Settled (list Post.t)) :=
  createAsyncThunk fetchUserPosts_pending fetchUserPosts_fulfilled
                   fetchUserPosts_rejected fetchUserPosts_payloadCreator.

(** *** The handler of "Fetch Both" *)

Section Handlers.
(** The built-in [parseInt], applied to the text of the input box. *)
Variable parseInt : string -> Num.

Definition handleFetchBoth (userId : string) : M unit :=
  if (userId =? "")%string then ret tt
  else
    try_catch
      (userResult <- unwrap (fetchUserById (parseInt userId)) ;;
       _ <- fetchUserPosts (User.id userResult) ;;
       ret tt)
      (fun error => console_error "Failed to fetch user:" error).
End Handlers.

End ThunkDemo.
Export ThunkDemo.

(* ================================================================== *)
(** ** The mock server behind [fetch] *)
(* ================================================================== *)

Module Registry.

(** Modelled from the spec: the Mock Endpoint Registry's [getById] on
    the [users] resource.  The registry is the json-server process over
    [mocks/db.json]; neither is among the sources, so the stored
    records are a parameter.  "Returns the stored record matching [id];
    if absent, fails with NotFound" ([None]). *)
Definition getById (users : list User.t) (id : Num) : option User.t :=
  find (fun u => num_eqb (User.id u) id) users.

(** Modelled from the spec: [GET /users/:id] "returns single user or
    404-equivalent failure". *)
Definition GET_users_id (users : list User.t) (id : Num) : FetchOutcome User.t :=
  match getById users id with
  | Some u => Answered (mkResponse true (Some u))
  | None => Answered (mkResponse false None)
  end.

End Registry.

(* ================================================================== *)
(** ** Vocabulary of the properties *)
(* ================================================================== *)

(** The live call gave nothing to return: [fetch] rejected, the response
    was not [ok], or its body did not parse. *)
Definition no_live_data {A : Type} (o : FetchOutcome A) : bool :=
  match o with
  | NetworkError _ => true
  | Answered r => negb (ok r) || match body r with None => true | Some _ => false end
  end.

(** The same for the posts request, where an empty list counts as no
    data too. *)
Definition no_live_posts (o : FetchOutcome (list Post.t)) : bool :=
  no_live_data o ||
  match o with
  | Answered r => match body r with Some [] => true | _ => false end
  | NetworkError _ => false
  end.

(** Every user request of the world is answered by the registry over
    [users], unless the call fails on the way. *)
Definition served_by_registry (users : list User.t) (w : World) : Prop :=
  forall n id,
    net_user w n id = Registry.GET_users_id users id \/
    no_live_data (net_user w n id) = true.

(** An effect of the fetch-posts operation: a lifecycle action of the
    [fetchUserPosts] thunk, the request for the posts, or the 800 ms wait
    of [mockApi.fetchUserPosts]. *)
Definition posts_event (e : Event) : bool :=
  match e with
  | EDispatch fetchUserPosts_pending
  | EDispatch (fetchUserPosts_fulfilled _)
  | EDispatch (fetchUserPosts_rejected _)
  | EFetch (PostsByUser _) => true
  | ETimeout ms => ms =? 800
  | _ => false
  end.

(** An effect that reaches the network. *)
Definition fetch_event (e : Event) : bool :=
  match e with
  | EFetch _ => true
  | _ => false
  end.



(** The result of a computation, and the state it leaves. *)
Definition result {A} (r : Res A * St) : Res A := fst r.
Definition final {A} (r : Res A * St) : St := snd r.

(** The state after [evs] were observed and [k] requests were sent. *)
Definition observed (s : St) (evs : list Event) (k : nat) : St :=
  mkSt (store s) (trace s ++ evs) (k + fetches s) (draws s) (ticks s).

(** A post the fixture generator made for [userId]. *)
Definition generated_for (userId : Num) (w : World) (p : Post.t) : Prop :=
  exists s, result (generateMockPost userId (Post.id p) w s) = Ok p.

(** The state after the action [a] reached the store. *)
Definition dispatched (a : Action) (s : St) : St :=
  mkSt (reducer (store s) a) (trace s ++ [EDispatch a]) (fetches s) (draws s) (ticks s).

(** No effect of the fetch-posts operation among [evs]. *)
Definition no_posts_events (evs : list Event) : Prop :=
  Forall (fun e => posts_event e = false) evs.

(** No request among [evs]. *)
Definition no_fetch_events (evs : list Event) : Prop :=
  Forall (fun e => fetch_event e = false) evs.

(** The two outcome shapes of a thunk: the promise resolves to the
    [fulfilled] action with a success value, or to the [rejected] action
    whose payload is a message string handed to [rejectWithValue]. *)
Definition two_shapes {R : Type} (r : Res (Settled R) * St) : Prop :=
  (exists v s', r = (Ok (Fulfilled v), s')) \/
  (exists msg s', r = (Ok (Rejected (Some msg) true "Rejected"), s')).

(** *** Worlds to run the program in *)

(** No server is listening: every [fetch] rejects. *)
Definition offline_world : World :=
  {| net_user := fun _ _ => NetworkError "Failed to fetch";
     net_posts := fun _ _ => NetworkError "Failed to fetch";
     random := fun n => mkDyadic (Z.of_nat (n mod 2) * 2 ^ 52) (-53);   (* 0, 1/2, 0, ... *)
     clock := fun n => 1700000000000 + Z.of_nat (n mod 1000) |}.

Definition alex : User.t :=
  {| User.id := NInt 5; User.name := "Alex Johnson";
     User.email := "alex.johnson@example.com";
     User.phone := None; User.website := None; User.company := None;
     User.posts := Some 3; User.createdAt := None |}.

(** The registry serves one stored user and no posts. *)
Definition registry_world : World :=
  {| net_user := fun _ id => Registry.GET_users_id [alex] id;
     net_posts := fun _ _ => Answered (mkResponse true (Some []));
     random := fun _ => mkDyadic (2 ^ 52) (-53);
     clock := fun n => 1700000000000 + Z.of_nat (n mod 1000) |}.

(** Two calls of [generateId] one millisecond apart, with draws that
    differ by one in the offset. *)
Definition colliding_world : World :=
  {| net_user := fun _ _ => NetworkError "Failed to fetch";
     net_posts := fun _ _ => NetworkError "Failed to fetch";
     random := fun n => match n with
                        | O => mkDyadic (3 * 2 ^ 42) (-53)   (* 3/2048: offset 1 *)
                        | _ => mkDyadic 0 (-53)              (* 0: offset 0 *)
                        end;
     clock := fun n => 1700000000000 + Z.of_nat (n mod 1000) |}.

Definition idle : St :=
  {| store := initialState; trace := []; fetches := 0; draws := 0; ticks := 0 |}.

(* ================================================================== *)
(** ** More of the run time: comparing doubles *)
(* ================================================================== *)

Module JsCompare.

(** [a < b] on doubles [m * 2^e] (of either sign): both are scaled to
    the smaller exponent, where they are integers. *)
Definition dyadic_ltb (a b : Dyadic) : bool :=
  let e := Z.min (expo a) (expo b) in
  mant a * 2 ^ (expo a - e) <? mant b * 2 ^ (expo b - e).

(** [a <= b] *)
Definition dyadic_leb (a b : Dyadic) : bool :=
  let e := Z.min (expo a) (expo b) in
  mant a * 2 ^ (expo a - e) <=? mant b * 2 ^ (expo b - e).

(** The double [1]. *)
Definition one : Dyadic := mkDyadic 1 0.

(** The double [0.1]: [3602879701896397 * 2^-55]. *)
Definition one_tenth : Dyadic := mkDyadic 3602879701896397 (-55).

End JsCompare.
Export JsCompare.

(* ================================================================== *)
(** ** mocks/server.ts: configuration and error simulation *)
(* ================================================================== *)

Module ServerConfig.

Definition NETWORK_DELAY : Z := 500.

(** [simulateError(errorRate = 0.1)]: [Math.random() < errorRate]; a
    call without argument ([None]) takes the default. *)
Definition simulateError (errorRate : option Dyadic) : M bool :=
  let errorRate := match errorRate with Some r => r | None => one_tenth end in
  r <- Math_random ;;
  ret (dyadic_ltb r errorRate).

End ServerConfig.
Export ServerConfig.

(** [API_ENDPOINTS] *)
Module API_ENDPOINTS.
Local Open Scope string_scope.

Definition users : string := MOCK_SERVER_URL ++ "/users".
Definition posts : string := MOCK_SERVER_URL ++ "/posts".
Definition todos : string := MOCK_SERVER_URL ++ "/todos".

Definition userPosts (userId : Num) : string :=
  MOCK_SERVER_URL ++ "/posts?userId=" ++ number_to_string userId.


End API_ENDPOINTS.

(* ================================================================== *)
(** ** ThunkDemo.tsx: the component [ThunkDemoContent] *)
(* ================================================================== *)

Module ThunkDemoContent.
Local Open Scope string_scope.

Section Handlers.
(** The built-in [parseInt], applied to the text of the input box. *)
Variable parseInt : string -> Num.


End Handlers.



(** [handleClear]; the result is the text that [setUserId] puts in the
    input box. *)
Definition handleClear : M string :=
  dispatch clearUser ;;
  ret "".

Definition handleClearErrors : M unit := dispatch clearErrors.

(** The JSX that the component returns is not modelled: it names
    [Container], [Title], [Controls], [Input], [Button], [ErrorState],
    [LoadingState], [Card] and [ListItem], none of which this module
    imports or defines.  The handlers above are modelled as the
    functions they are. *)

End ThunkDemoContent.
Export ThunkDemoContent.

(* ================================================================== *)
(** ** More vocabulary *)
(* ================================================================== *)


(** The clock is past the epoch. *)
Definition clock_after_epoch (w : World) : Prop :=
  forall n, 0 <= clock w n.

(** The post that round [j] of the fallback loop pushes, when the loop
    began with the clock read [t0] times and its counter at [i0]. *)
Definition fixture_post (w : World) (userId : Num) (t0 : nat) (i0 : Z) (j : nat) : Post.t :=
  let postId := NInt (js_add (clock w (t0 + 2 * j)) (i0 + Z.of_nat j)) in
  {| Post.id := postId;
     Post.userId := userId;
     Post.title := index titles (num_rem postId (len titles));
     Post.body := index bodies (num_rem postId (len bodies));
     Post.createdAt := Some (clock w (S (t0 + 2 * j))) |}.


(** The thunk's promise resolved to a [rejected] action. *)
Definition is_rejected {R : Type} (r : Res (Settled R)) : bool :=
  match r with
  | Ok (Rejected _ _ _) => true
  | _ => false
  end.

(** How many requests were sent among [evs]. *)
Definition count_fetches (evs : list Event) : nat :=
  List.length (filter fetch_event evs).

(** A server that answers every request: user 7 is stored, and so are
    two posts, one of them of another user. *)
Definition sam : User.t :=
  {| User.id := NInt 7; User.name := "Sam Wilson";
     User.email := "sam.wilson@test.org";
     User.phone := None; User.website := None; User.company := None;
     User.posts := Some 2; User.createdAt := None |}.

Definition stored_posts : list Post.t :=
  [ {| Post.id := NInt 1; Post.userId := NInt 7; Post.title := Some "Hello"%string;
       Post.body := Some "First"%string; Post.createdAt := None |};
    {| Post.id := NInt 2; Post.userId := NInt 9; Post.title := Some "Again"%string;
       Post.body := Some "Second"%string; Post.createdAt := None |} ].

Definition live_world : World :=
  {| net_user := fun _ _ => Answered (mkResponse true (Some sam));
     net_posts := fun _ _ => Answered (mkResponse true (Some stored_posts));
     random := fun _ => mkDyadic (2 ^ 52) (-53);
     clock := fun n => 1700000000000 + Z.of_nat (n mod 1000) |}.

(** The slice while a user is shown and nothing is in flight. *)
Definition showing_alex : St :=
  {| store := mkUsersState (Some alex) [] false false None None;
     trace := []; fetches := 0; draws := 0; ticks := 0 |}.

(** No server, a clock that ticks one millisecond per reading (up to a
    second) and draws 0, 1/2, 0, ... *)
Definition steady_world : World :=
  {| net_user := fun _ _ => NetworkError "Failed to fetch";
     net_posts := fun _ _ => NetworkError "Failed to fetch";
     random := fun n => mkDyadic (Z.of_nat (n mod 2) * 2 ^ 52) (-53);
     clock := fun n => 1700000000000 + Z.of_nat (Nat.min n 1000) |}.

(* ================================================================== *)
(** * Properties *)
(* ================================================================== *)

(** ** Arithmetic of doubles *)

Section NumberLemmas.

Lemma round_half_even_bounds (a k : Z) :
  0 <= a -> 0 < k ->
  0 <= round_half_even a k /\ round_half_even a k * 2 ^ k <= a + 2 ^ (k - 1).
Proof.
  intros Ha Hk. unfold round_half_even.
  rewrite Z.shiftr_div_pow2, Z.land_ones, Z.shiftl_mul_pow2 by lia.
  rewrite Z.mul_1_l.
  assert (Hp : 0 < 2 ^ k) by (apply Z.pow_pos_nonneg; lia).
  assert (Hh : 2 ^ k = 2 * 2 ^ (k - 1)).
  { replace k with (Z.succ (k - 1)) at 1 by lia. apply Z.pow_succ_r. lia. }
  pose proof (Z.div_mod a (2 ^ k) ltac:(lia)) as Hdm.
  pose proof (Z.mod_pos_bound a (2 ^ k) Hp) as Hm.
  assert (Hq : 0 <= a / 2 ^ k) by (apply Z.div_pos; lia).
  set (q := a / 2 ^ k) in *. set (r := a mod 2 ^ k) in *.
  set (h := 2 ^ (k - 1)) in *.
  destruct (r <? h) eqn:E1; [apply Z.ltb_lt in E1 | apply Z.ltb_ge in E1].
  - split; nia.
  - destruct (h <? r) eqn:E2; [apply Z.ltb_lt in E2 | apply Z.ltb_ge in E2].
    + split; nia.
    + destruct (Z.even q); split; nia.
Qed.

(** [Math.floor(Math.random() * c)] lies in [0 .. c-1]: the product is
    rounded to a double, and still stays below [c]. *)
Lemma floor_mul_int_range (d : Dyadic) (c : Z) :
  valid_draw d -> 1 <= c <= 2 ^ 53 ->
  0 <= floor (mul_int d c) < c.
Proof.
  intros [[Hm0 Hm1] [He0 He1]] [Hc0 Hc1].
  unfold mul_int, round_to_double, floor.
  set (a := mant d * c).
  assert (Ha : 0 <= a) by (unfold a; nia).
  assert (Hac : a + c <= c * 2 ^ 53) by (unfold a; nia).
  assert (HE : 2 ^ 53 <= 2 ^ (- expo d)) by (apply Z.pow_le_mono_r; lia).
  destruct (Z.log2 a - 52 <=? 0) eqn:Ek; cbn [mant expo].
  - rewrite Z.shiftr_div_pow2 by lia. split.
    + apply Z.div_pos; lia.
    + apply Z.div_lt_upper_bound; nia.
  - apply Z.leb_gt in Ek. set (k := Z.log2 a - 52) in *.
    assert (Hapos : 0 < a).
    { destruct (Z.eq_dec a 0) as [E|E]; [|lia].
      unfold k in Ek. rewrite E in Ek. simpl in Ek. lia. }
    destruct (Z.log2_spec a Hapos) as [Hlo _].
    assert (Hk53 : k <= 53).
    { assert (Hlt : a < 2 ^ 106).
      { replace (2 ^ 106) with (2 ^ 53 * 2 ^ 53) by reflexivity. nia. }
      apply Z.log2_lt_pow2 in Hlt; lia. }
    assert (Hhalf : 2 ^ (k - 1) < c).
    { replace (Z.log2 a) with ((k - 1) + 53) in Hlo by (unfold k; lia).
      rewrite Z.pow_add_r in Hlo by lia.
      assert (0 < 2 ^ (k - 1)) by (apply Z.pow_pos_nonneg; lia). nia. }
    destruct (round_half_even_bounds a k Ha Ek) as [Hr0 Hr1].
    replace (- (expo d + k)) with (- expo d - k) by lia.
    rewrite Z.shiftr_div_pow2 by lia.
    assert (Hsplit : 2 ^ (- expo d) = 2 ^ (- expo d - k) * 2 ^ k).
    { rewrite <- Z.pow_add_r by lia. f_equal. lia. }
    assert (Hp1 : 0 < 2 ^ (- expo d - k)) by (apply Z.pow_pos_nonneg; lia).
    assert (Hp2 : 0 < 2 ^ k) by (apply Z.pow_pos_nonneg; lia).
    split.
    + apply Z.div_pos; lia.
    + apply Z.div_lt_upper_bound; [lia|].
      assert (Hlt : round_half_even a k * 2 ^ k < c * 2 ^ (- expo d)) by nia.
      rewrite Hsplit in Hlt. nia.
Qed.

(** Integers below [2^53] in magnitude are doubles: no rounding. *)
Lemma round_int_exact (z : Z) : Z.abs z < 2 ^ 53 -> round_int z = z.
Proof.
  intros H. unfold round_int.
  destruct (Z.eq_dec z 0) as [->|Hz]; [reflexivity|].
  assert (Z.log2 (Z.abs z) < 53) by (apply Z.log2_lt_pow2; lia).
  destruct (Z.log2 (Z.abs z) - 52 <=? 0) eqn:E; [reflexivity|].
  apply Z.leb_gt in E. lia.
Qed.

Lemma js_add_exact (a b : Z) : Z.abs (a + b) < 2 ^ 53 -> js_add a b = a + b.
Proof. apply round_int_exact. Qed.

(** [Math.floor(Math.random() * c) + 1] lies in [1 .. c]. *)
Lemma random_count_range (d : Dyadic) (c : Z) :
  valid_draw d -> 1 <= c <= 1000 ->
  1 <= js_add (floor (mul_int d c)) 1 <= c /\
  js_add (floor (mul_int d c)) 1 = floor (mul_int d c) + 1.
Proof.
  intros Hd Hc.
  assert (H53 : 1 <= c <= 2 ^ 53) by (change (2 ^ 53) with 9007199254740992; lia).
  pose proof (floor_mul_int_range d c Hd H53) as Hf.
  rewrite js_add_exact by (change (2 ^ 53) with 9007199254740992; lia).
  lia.
Qed.

End NumberLemmas.

(** ** The worlds of the examples are well-formed *)

Section Worlds.

Lemma mod_time_valid (n : nat) : valid_time (1700000000000 + Z.of_nat (n mod 1000)).
Proof.
  unfold valid_time.
  pose proof (Nat.mod_upper_bound n 1000 ltac:(discriminate)). lia.
Qed.

Lemma offline_world_valid : valid_world offline_world.
Proof.
  intros n. split; [|apply mod_time_valid].
  unfold valid_draw, offline_world; cbn [random mant expo].
  pose proof (Nat.mod_upper_bound n 2 ltac:(discriminate)).
  change (2 ^ 53) with 9007199254740992. change (2 ^ 52) with 4503599627370496. lia.
Qed.

Lemma registry_world_valid : valid_world registry_world.
Proof.
  intros n. split; [|apply mod_time_valid].
  unfold valid_draw, registry_world; cbn [random mant expo].
  change (2 ^ 53) with 9007199254740992. change (2 ^ 52) with 4503599627370496. lia.
Qed.

Lemma colliding_world_valid : valid_world colliding_world.
Proof.
  intros n. split; [|apply mod_time_valid].
  unfold valid_draw, colliding_world; cbn [random].
  destruct n; cbn [mant expo];
    change (2 ^ 53) with 9007199254740992; change (2 ^ 42) with 4398046511104; lia.
Qed.

Lemma registry_world_served : served_by_registry [alex] registry_world.
Proof. intros n id. left. reflexivity. Qed.

End Worlds.

(** ** The slice *)

Section Slice.

(** C10. For every state, the [clearUser] reducer sets [currentUser] to
    null, [userPosts] to the empty list, and [error] and [postsError] to
    null, and leaves [loading] and [postsLoading] as they were; the store
    takes exactly that state when [clearUser] is dispatched. *)
Theorem clearUser_frame (state : UsersState) :
  currentUser (reducer state clearUser) = None /\
  userPosts (reducer state clearUser) = [] /\
  error (reducer state clearUser) = None /\
  postsError (reducer state clearUser) = None /\
  loading (reducer state clearUser) = loading state /\
  postsLoading (reducer state clearUser) = postsLoading state /\
  (forall w s, store s = state ->
     store (final (dispatch clearUser w s)) = reducer state clearUser).
Proof.
  destruct state as [cu ups ld pld err perr]; cbn.
  repeat split. intros w s ->. reflexivity.
Qed.

(** A "Clear All" while both requests are in flight keeps both loading
    flags up. *)
Lemma clearUser_frame_in_flight :
  loading (reducer (mkUsersState (Some alex) [] true true (Some "x"%string) None) clearUser) = true /\
  postsLoading (reducer (mkUsersState (Some alex) [] true true (Some "x"%string) None) clearUser) = true /\
  store (final (dispatch clearUser offline_world idle)) = reducer initialState clearUser.
Proof.
  pose proof (clearUser_frame (mkUsersState (Some alex) [] true true (Some "x"%string) None))
    as (_ & _ & _ & _ & Hl & Hp & _).
  pose proof (clearUser_frame initialState) as (_ & _ & _ & _ & _ & _ & Hd).
  split; [exact Hl|]. split; [exact Hp|]. apply Hd. reflexivity.
Defined.

End Slice.

(** ** The fixture generator *)

Section Generator.

(** One call of [generateMockUser], run to its end. *)
Lemma generateMockUser_run (id : Num) (w : World) (s : St) :
  generateMockUser id w s =
  (Ok {| User.id := id;
         User.name := or_else (index names (num_rem id (len names)))
                              ("User " ++ number_to_string id)%string;
         User.email :=
           (replace " " "."
              (toLowerCase (or_else (index names (num_rem id (len names)))
                                    ("User " ++ number_to_string id)))
              ++ "@" ++ string_or_undefined (index domains (num_rem id (len domains))))%string;
         User.phone := None; User.website := None; User.company := None;
         User.posts := Some (js_add (floor (mul_int (random w (draws s)) 20)) 1);
         User.createdAt := Some (clock w (ticks s)) |},
   mkSt (store s) (trace s) (fetches s) (S (draws s)) (S (ticks s))).
Proof. reflexivity. Qed.

Lemma generateMockPost_run (userId postId : Num) (w : World) (s : St) :
  generateMockPost userId postId w s =
  (Ok {| Post.id := postId;
         Post.userId := userId;
         Post.title := index titles (num_rem postId (len titles));
         Post.body := index bodies (num_rem postId (len bodies));
         Post.createdAt := Some (clock w (ticks s)) |},
   mkSt (store s) (trace s) (fetches s) (draws s) (S (ticks s))).
Proof. reflexivity. Qed.

Lemma generateId_run (w : World) (s : St) :
  generateId w s =
  (Ok (js_add (clock w (ticks s)) (floor (mul_int (random w (draws s)) 1000))),
   mkSt (store s) (trace s) (fetches s) (S (draws s)) (S (ticks s))).
Proof. reflexivity. Qed.

(** The JavaScript remainder by 5 agrees with the mathematical one on
    the ids that hit the pools. *)
Lemma rem5_cases (id : Z) :
  0 <= id \/ Z.rem id 5 = 0 ->
  Z.rem id 5 = id mod 5 /\
  (id mod 5 = 0 \/ id mod 5 = 1 \/ id mod 5 = 2 \/ id mod 5 = 3 \/ id mod 5 = 4).
Proof.
  intros H. pose proof (Z.mod_pos_bound id 5 ltac:(lia)) as Hb.
  split; [|lia].
  destruct H as [H|H].
  - apply Z.rem_mod_nonneg; lia.
  - rewrite H. symmetry. apply Z.rem_divide in H; [|lia].
    apply Z.mod_divide; [lia|assumption].
Qed.

Lemma negative_rem5 (id : Z) : id < 0 -> Z.rem id 5 <> 0 -> Z.rem id 5 < 0.
Proof.
  intros H1 H2. pose proof (Z.rem_bound_pos_neg id 5 ltac:(lia) ltac:(lia)). lia.
Qed.

(** C6. For every integer id, two calls of [generateMockUser(id)],
    whatever the random draws and the clock of each, return the same
    [id], [name] and [email]; [posts] and [createdAt] need not agree, and
    there are two calls in a row where both differ. *)
Theorem generateMockUser_stable_fields (id : Z) :
  (forall w1 s1 w2 s2, exists u1 u2,
      result (generateMockUser (NInt id) w1 s1) = Ok u1 /\
      result (generateMockUser (NInt id) w2 s2) = Ok u2 /\
      User.id u1 = User.id u2 /\
      User.name u1 = User.name u2 /\
      User.email u1 = User.email u2) /\
  (exists w s u1 s1 u2 s2,
      generateMockUser (NInt id) w s = (Ok u1, s1) /\
      generateMockUser (NInt id) w s1 = (Ok u2, s2) /\
      User.posts u1 <> User.posts u2 /\
      User.createdAt u1 <> User.createdAt u2).
Proof.
  split.
  - intros w1 s1 w2 s2. rewrite !generateMockUser_run.
    eexists; eexists. repeat split.
  - exists offline_world, idle. rewrite generateMockUser_run.
    eexists; eexists. rewrite generateMockUser_run.
    eexists; eexists. split; [reflexivity|]. split; [reflexivity|].
    cbn [User.posts User.createdAt]. split; intros E; vm_compute in E; discriminate E.
Qed.




(** C8. [generateId()] returns the current time in milliseconds plus an
    integer offset in [[0, 1000)], so a value between [Date.now()] and
    [Date.now() + 999]; ids are not unique for sure: two calls a
    millisecond apart can return the same id. *)
Theorem generateId_range :
  (forall w s, valid_world w ->
     exists id offset s',
       generateId w s = (Ok id, s') /\
       0 <= offset < 1000 /\
       id = clock w (ticks s) + offset /\
       clock w (ticks s) <= id <= clock w (ticks s) + 999) /\
  (exists w s id s1 s2,
     valid_world w /\
     generateId w s = (Ok id, s1) /\
     generateId w s1 = (Ok id, s2) /\
     clock w (ticks s) < clock w (ticks s1)).
Proof.
  split.
  - intros w s Hw. destruct (Hw (draws s)) as [Hd _]. destruct (Hw (ticks s)) as [_ Ht].
    rewrite generateId_run.
    assert (H53 : 1 <= 1000 <= 2 ^ 53) by (change (2 ^ 53) with 9007199254740992; lia).
    pose proof (floor_mul_int_range _ 1000 Hd H53) as Hf.
    unfold valid_time in Ht.
    rewrite js_add_exact by (change (2 ^ 53) with 9007199254740992; lia).
    eexists; exists (floor (mul_int (random w (draws s)) 1000)); eexists.
    split; [reflexivity|]. lia.
  - exists colliding_world, idle. rewrite generateId_run.
    eexists; eexists; eexists. split; [exact colliding_world_valid|].
    split; [reflexivity|]. split; [vm_compute; reflexivity|]. vm_compute. reflexivity.
Qed.

(** With no server and the clock at 1700000000000, [generateId] stays
    within 999 of it. *)
Lemma generateId_range_offline :
  exists id s',
    generateId offline_world idle = (Ok id, s') /\
    1700000000000 <= id <= 1700000000999.
Proof.
  destruct (proj1 generateId_range offline_world idle offline_world_valid)
    as (id & offset & s' & Hrun & _ & _ & Hb).
  exists id, s'. split; [exact Hrun | exact Hb].
Defined.

End Generator.

(** ** The mock API *)

Section MockApi.

(** Unfold the monad around a call. *)
Ltac run :=
  cbv [mockApi.fetchUser mockApi.fetchUserPosts bind try_catch sleep emit
       console_log console_error fetch json ret throw Math_random Date_now];
  cbn [ok body store trace fetches draws ticks].

Lemma live_or_not {A} (o : FetchOutcome A) :
  (exists a, o = Answered (mkResponse true (Some a))) \/ no_live_data o = true.
Proof.
  destruct o as [msg|[[|] [a|]]]; cbn; eauto.
Qed.

Lemma fetchUser_above (id : Num) (w : World) (s : St) :
  num_gtb id (NInt 10) = true ->
  mockApi.fetchUser id w s =
  (Throw (ErrorObj "User not found"), observed s [ETimeout 1000] 0).
Proof.
  intros H. run. rewrite H. reflexivity.
Qed.

Lemma fetchUser_live (id : Num) (w : World) (s : St) (u : User.t) :
  num_gtb id (NInt 10) = false ->
  net_user w (fetches s) id = Answered (mkResponse true (Some u)) ->
  mockApi.fetchUser id w s =
  (Ok u, observed s [ETimeout 1000; EFetch (UsersById id)] 1).
Proof.
  intros H Hnet. run. rewrite H. cbn [fetches]. rewrite Hnet. cbn.
  unfold observed. rewrite <- app_assoc. reflexivity.
Qed.

Lemma fetchUser_fallback (id : Num) (w : World) (s : St) :
  num_gtb id (NInt 10) = false ->
  no_live_data (net_user w (fetches s) id) = true ->
  exists evs,
    (evs = [] \/ evs = [EConsoleLog "Using generated mock data"]) /\
    mockApi.fetchUser id w s =
    generateMockUser id w (observed s ([ETimeout 1000; EFetch (UsersById id)] ++ evs) 1).
Proof.
  intros H Hnet. run. rewrite H. cbn [fetches].
  destruct (net_user w (fetches s) id) as [msg|[[|] [u|]]]; cbn in Hnet; try discriminate Hnet; cbn.
  - eexists; split; [right; reflexivity|]. unfold observed. cbn [app]. rewrite <- !app_assoc. reflexivity.
  - eexists; split; [right; reflexivity|]. unfold observed. cbn [app]. rewrite <- !app_assoc. reflexivity.
  - eexists; split; [left; reflexivity|]. unfold observed. cbn [app]. rewrite <- !app_assoc. reflexivity.
  - eexists; split; [left; reflexivity|]. unfold observed. cbn [app]. rewrite <- !app_assoc. reflexivity.
Qed.


(** The loop pushes one generated post per remaining round and touches
    nothing but the clock. *)
Lemma push_posts_run (w : World) (userId : Num) (postCount : Z) :
  postCount < 2 ^ 52 ->
  forall (fuel : nat) (i : Z) (posts : list Post.t) (s : St),
    0 <= i -> i + Z.of_nat fuel = postCount + 1 ->
    exists ps,
      mockApi.push_posts fuel userId postCount i posts w s =
      (Ok (posts ++ ps),
       mkSt (store s) (trace s) (fetches s) (draws s) (2 * fuel + ticks s)) /\
      List.length ps = fuel /\
      Forall (fun p => Post.userId p = userId /\ generated_for userId w p) ps.
Proof.
  intros Hpc. induction fuel as [|fuel IH]; intros i posts s Hi Hfuel.
  - exists []. cbn. rewrite app_nil_r. destruct s; repeat split. constructor.
  - cbn [mockApi.push_posts].
    assert (Hle : (i <=? postCount) = true) by (apply Z.leb_le; lia).
    rewrite Hle.
    assert (Hinc : js_add i 1 = i + 1).
    { apply js_add_exact. change (2 ^ 52) with 4503599627370496 in Hpc.
      change (2 ^ 53) with 9007199254740992. lia. }
    cbv [bind Date_now]. rewrite generateMockPost_run. cbn [store trace fetches draws ticks].
    rewrite Hinc.
    match goal with
    | |- context [mockApi.push_posts fuel userId postCount (i + 1) ?l w ?s0] =>
        destruct (IH (i + 1) l s0) as (ps & Hrun & Hlen & Hall); [lia | lia |]
    end.
    eexists (_ :: ps). rewrite Hrun. cbn [store trace fetches draws ticks].
    split; [|split].
    + rewrite <- app_assoc. cbn [app].
      replace (2 * S fuel + ticks s)%nat with (2 * fuel + S (S (ticks s)))%nat by lia.
      reflexivity.
    + cbn. rewrite Hlen. reflexivity.
    + constructor; [|exact Hall]. cbn [Post.userId Post.id]. split; [reflexivity|].
      exists (mkSt (store s) (trace s) (fetches s) (draws s) (S (ticks s))).
      rewrite generateMockPost_run. reflexivity.
Qed.

(** More fuel than [postCount] rounds changes nothing: the loop ends by
    its own test. *)
Lemma push_posts_fuel (w : World) (userId : Num) (postCount : Z) (extra : nat) :
  postCount < 2 ^ 52 ->
  forall (fuel : nat) (i : Z) (posts : list Post.t) (s : St),
    0 <= i -> i + Z.of_nat fuel = postCount + 1 ->
    mockApi.push_posts (fuel + extra) userId postCount i posts w s =
    mockApi.push_posts fuel userId postCount i posts w s.
Proof.
  intros Hpc. induction fuel as [|fuel IH]; intros i posts s Hi Hfuel.
  - cbn [Nat.add]. destruct extra as [|extra]; [reflexivity|].
    cbn [mockApi.push_posts].
    assert (Hgt : (i <=? postCount) = false) by (apply Z.leb_gt; lia).
    rewrite Hgt. reflexivity.
  - cbn [Nat.add mockApi.push_posts].
    destruct (i <=? postCount); [|reflexivity].
    assert (Hinc : js_add i 1 = i + 1).
    { apply js_add_exact. change (2 ^ 52) with 4503599627370496 in Hpc.
      change (2 ^ 53) with 9007199254740992. lia. }
    cbv [bind Date_now]. rewrite generateMockPost_run. rewrite Hinc.
    apply IH; lia.
Qed.

Lemma fetchUserPosts_live (userId : Num) (w : World) (s : St) (posts : list Post.t) :
  net_posts w (fetches s) userId = Answered (mkResponse true (Some posts)) ->
  posts <> [] ->
  mockApi.fetchUserPosts userId w s =
  (Ok posts, observed s [ETimeout 800; EFetch (PostsByUser userId)] 1).
Proof.
  intros Hnet Hne. run. rewrite Hnet. cbn.
  destruct posts as [|p ps]; [contradiction|].
  cbn. unfold observed. rewrite <- app_assoc. reflexivity.
Qed.

Lemma live_posts_or_not (o : FetchOutcome (list Post.t)) :
  (exists posts, posts <> [] /\ o = Answered (mkResponse true (Some posts))) \/
  no_live_posts o = true.
Proof.
  destruct o as [msg|[[|] [[|p ps]|]]]; cbn; eauto.
  left. exists (p :: ps). split; [discriminate|reflexivity].
Qed.

Lemma fetchUserPosts_fallback (userId : Num) (w : World) (s : St) :
  valid_world w ->
  no_live_posts (net_posts w (fetches s) userId) = true ->
  exists evs posts,
    (evs = [] \/ evs = [EConsoleLog "Using generated mock data"]) /\
    mockApi.fetchUserPosts userId w s =
    (Ok posts,
     mkSt (store s) (trace s ++ [ETimeout 800; EFetch (PostsByUser userId)] ++ evs)
          (S (fetches s)) (S (draws s)) (2 * List.length posts + ticks s)) /\
    Z.of_nat (List.length posts) = floor (mul_int (random w (draws s)) 5) + 1 /\
    Forall (fun p => Post.userId p = userId /\ generated_for userId w p) posts.
Proof.
  intros Hw Hnet. destruct (Hw (draws s)) as [Hd _].
  destruct (random_count_range _ 5 Hd ltac:(lia)) as [Hrange Hexact].
  set (postCount := js_add (floor (mul_int (random w (draws s)) 5)) 1) in *.
  assert (Hpc : postCount < 2 ^ 52) by (change (2 ^ 52) with 4503599627370496; lia).
  assert (Hloop : forall s0, exists ps,
             mockApi.push_posts (Z.to_nat postCount) userId postCount 1 [] w s0 =
             (Ok ps, mkSt (store s0) (trace s0) (fetches s0) (draws s0)
                          (2 * List.length ps + ticks s0)) /\
             Z.of_nat (List.length ps) = postCount /\
             Forall (fun p => Post.userId p = userId /\ generated_for userId w p) ps).
  { intros s0.
    destruct (push_posts_run w userId postCount Hpc (Z.to_nat postCount) 1 [] s0)
      as (ps & Hrun & Hlen & Hall); [lia | lia |].
    exists ps. cbn [app] in Hrun. rewrite Hrun, Hlen. repeat split; [lia | exact Hall]. }
  run. cbn [fetches].
  destruct (net_posts w (fetches s) userId) as [msg|[[|] [[|p ps]|]]];
    cbn in Hnet; try discriminate Hnet; cbn;
    fold postCount;
    match goal with
    | |- context [mockApi.push_posts _ _ _ _ _ w ?s0] =>
        destruct (Hloop s0) as (posts & Hrun & Hlen & Hall); rewrite Hrun
    end;
    cbn [store trace fetches draws ticks];
    first
      [ solve [ exists [], posts; split; [left; reflexivity|];
                split; [cbn [app]; rewrite <- ?app_assoc; reflexivity | split; [lia | exact Hall]] ]
      | solve [ exists [EConsoleLog "Using generated mock data"], posts;
                split; [right; reflexivity|];
                split; [cbn [app]; rewrite <- ?app_assoc; reflexivity | split; [lia | exact Hall]] ] ].
Qed.

(** In a world that can occur the generated list does not depend on the
    fuel of the loop: [postCount] rounds exhaust it, and with more fuel
    the loop ends by its own test [i <= postCount]. *)
Lemma fallback_loop_ends_by_its_test (userId : Num) (w : World) (s : St) (extra n : nat) :
  valid_world w ->
  let postCount := js_add (floor (mul_int (random w n) 5)) 1 in
  mockApi.push_posts (Z.to_nat postCount + extra) userId postCount 1 [] w s =
  mockApi.push_posts (Z.to_nat postCount) userId postCount 1 [] w s.
Proof.
  intros Hw postCount. destruct (Hw n) as [Hd _].
  destruct (random_count_range _ 5 Hd ltac:(lia)) as [Hrange _]. fold postCount in Hrange.
  apply push_posts_fuel; [change (2 ^ 52) with 4503599627370496; lia | lia | lia].
Qed.

End MockApi.

(** ** The thunks *)

Section Thunks.

Ltac run_thunk :=
  cbv [fetchUserById fetchUserPosts createAsyncThunk settle dispatch
       fetchUserById_payloadCreator fetchUserPosts_payloadCreator
       bind try_catch ret throw message_of unwrap];
  cbn [store trace fetches draws ticks].

(** Below the threshold [mockApi.fetchUser] returns a user: the server's
    record, or a generated one. *)
Lemma fetchUser_below (id : Num) (w : World) (s : St) :
  num_gtb id (NInt 10) = false ->
  exists u evs d t,
    mockApi.fetchUser id w s =
    (Ok u, mkSt (store s) (trace s ++ ETimeout 1000 :: EFetch (UsersById id) :: evs)
                (S (fetches s)) d t) /\
    (evs = [] \/ evs = [EConsoleLog "Using generated mock data"]) /\
    (net_user w (fetches s) id = Answered (mkResponse true (Some u)) \/
     no_live_data (net_user w (fetches s) id) = true /\ User.id u = id).
Proof.
  intros Hid. destruct (live_or_not (net_user w (fetches s) id)) as [[u Hnet]|Hnet].
  - exists u, [], (draws s), (ticks s). rewrite (fetchUser_live id w s u Hid Hnet).
    split; [reflexivity|]. split; [left; reflexivity|]. left. exact Hnet.
  - destruct (fetchUser_fallback id w s Hid Hnet) as (evs & Hevs & Hrun).
    rewrite Hrun, generateMockUser_run. cbn [observed store trace fetches draws ticks].
    eexists; exists evs; eexists; eexists. split; [reflexivity|].
    split; [exact Hevs|]. right. split; [exact Hnet | reflexivity].
Qed.

Lemma fetchUserById_above (id : Num) (w : World) (s : St) :
  num_gtb id (NInt 10) = true ->
  fetchUserById id w s =
  (Ok (Rejected (Some "User not found"%string) true "Rejected"),
   dispatched (fetchUserById_rejected (Some "User not found"%string))
     (observed (dispatched fetchUserById_pending s) [ETimeout 1000] 0)).
Proof.
  intros Hid. run_thunk.
  fold (dispatched fetchUserById_pending s).
  rewrite (fetchUser_above id w _ Hid). reflexivity.
Qed.

Lemma fetchUserById_below (id : Num) (w : World) (s : St) :
  num_gtb id (NInt 10) = false ->
  exists u s1 evs,
    mockApi.fetchUser id w (dispatched fetchUserById_pending s) = (Ok u, s1) /\
    fetchUserById id w s = (Ok (Fulfilled u), dispatched (fetchUserById_fulfilled u) s1) /\
    trace s1 = trace s ++ EDispatch fetchUserById_pending :: ETimeout 1000
                 :: EFetch (UsersById id) :: evs /\
    (evs = [] \/ evs = [EConsoleLog "Using generated mock data"]).
Proof.
  intros Hid.
  destruct (fetchUser_below id w (dispatched fetchUserById_pending s) Hid)
    as (u & evs & d & t & Hrun & Hevs & _).
  eexists u, _, evs. split; [exact Hrun|]. split; [|split; [|exact Hevs]].
  - run_thunk. fold (dispatched fetchUserById_pending s). rewrite Hrun. reflexivity.
  - cbn [trace dispatched]. rewrite <- app_assoc. reflexivity.
Qed.

(** The loop always ends with a list, and is seen by no one. *)
Lemma push_posts_total (w : World) (userId : Num) (postCount : Z) :
  forall (fuel : nat) (i : Z) (posts : list Post.t) (s : St),
  exists ps t,
    mockApi.push_posts fuel userId postCount i posts w s =
    (Ok ps, mkSt (store s) (trace s) (fetches s) (draws s) t).
Proof.
  induction fuel as [|fuel IH]; intros i posts s.
  - exists posts, (ticks s). destruct s; reflexivity.
  - cbn [mockApi.push_posts]. destruct (i <=? postCount).
    + cbv [bind Date_now]. rewrite generateMockPost_run.
      match goal with
      | |- context [mockApi.push_posts fuel userId postCount ?j ?l w ?s0] =>
          destruct (IH j l s0) as (ps & t & Hrun)
      end.
      exists ps, t. rewrite Hrun. reflexivity.
    + exists posts, (ticks s). destruct s; reflexivity.
Qed.

(** [mockApi.fetchUserPosts] returns a list in every world. *)
Lemma fetchUserPosts_total (userId : Num) (w : World) (s : St) :
  exists posts evs d t,
    mockApi.fetchUserPosts userId w s =
    (Ok posts, mkSt (store s) (trace s ++ ETimeout 800 :: EFetch (PostsByUser userId) :: evs)
                    (S (fetches s)) d t) /\
    (evs = [] \/ evs = [EConsoleLog "Using generated mock data"]).
Proof.
  cbv [mockApi.fetchUserPosts bind try_catch sleep emit console_log fetch json ret throw Math_random].
  cbn [ok body store trace fetches draws ticks].
  destruct (net_posts w (fetches s) userId) as [msg|[[|] [[|p ps]|]]]; cbn;
    try match goal with
    | |- context [mockApi.push_posts ?f userId ?c ?j ?l w ?s0] =>
        destruct (push_posts_total w userId c f j l s0) as (posts & t & Hrun); rewrite Hrun
    end;
    cbn [store trace fetches draws ticks];
    first
      [ solve [ eexists; exists []; eexists; eexists;
                split; [rewrite <- ?app_assoc; reflexivity | left; reflexivity] ]
      | solve [ eexists; exists [EConsoleLog "Using generated mock data"]; eexists; eexists;
                split; [rewrite <- ?app_assoc; reflexivity | right; reflexivity] ] ].
Qed.

Lemma fetchUserPosts_thunk_run (userId : Num) (w : World) (s : St) :
  exists posts s1 evs,
    mockApi.fetchUserPosts userId w (dispatched fetchUserPosts_pending s) = (Ok posts, s1) /\
    fetchUserPosts userId w s =
    (Ok (Fulfilled posts), dispatched (fetchUserPosts_fulfilled posts) s1) /\
    trace s1 = trace s ++ EDispatch fetchUserPosts_pending :: ETimeout 800
                 :: EFetch (PostsByUser userId) :: evs.
Proof.
  destruct (fetchUserPosts_total userId w (dispatched fetchUserPosts_pending s))
    as (posts & evs & d & t & Hrun & _).
  eexists posts, _, evs. split; [exact Hrun|]. split.
  - run_thunk. fold (dispatched fetchUserPosts_pending s). rewrite Hrun. reflexivity.
  - cbn [trace dispatched]. rewrite <- app_assoc. reflexivity.
Qed.

End Thunks.

(** ** The network simulation layer *)

Section NetworkLayer.

(** C1. For every integer id greater than 10, the fetch-user path fails
    with the message "User not found": [mockApi.fetchUser] throws an
    [Error] with exactly that message, the [fetchUserById] thunk resolves
    to its [rejected] action with that message as payload (and the slice
    stores it as [error]), and no request is sent: the only effects are
    the two lifecycle actions and the 1000 ms wait. *)
Theorem fetch_user_above_threshold (id : Z) (w : World) (s : St) :
  10 < id ->
  (exists s1,
     mockApi.fetchUser (NInt id) w s = (Throw (ErrorObj "User not found"), s1) /\
     trace s1 = trace s ++ [ETimeout 1000] /\
     fetches s1 = fetches s) /\
  (exists s2,
     fetchUserById (NInt id) w s =
       (Ok (Rejected (Some "User not found"%string) true "Rejected"), s2) /\
     trace s2 = trace s ++ [EDispatch fetchUserById_pending; ETimeout 1000;
                            EDispatch (fetchUserById_rejected (Some "User not found"%string))] /\
     no_fetch_events [EDispatch fetchUserById_pending; ETimeout 1000;
                      EDispatch (fetchUserById_rejected (Some "User not found"%string))] /\
     fetches s2 = fetches s /\
     error (store s2) = Some "User not found"%string).
Proof.
  intros Hid.
  assert (Hgt : num_gtb (NInt id) (NInt 10) = true) by (apply Z.ltb_lt; exact Hid).
  split.
  - rewrite (fetchUser_above _ w s Hgt). eexists. split; [reflexivity|].
    split; reflexivity.
  - rewrite (fetchUserById_above _ w s Hgt). eexists. split; [reflexivity|].
    split; [|split; [|split]].
    + cbn [trace dispatched observed]. rewrite <- !app_assoc. reflexivity.
    + repeat constructor.
    + reflexivity.
    + reflexivity.
Qed.

Lemma fetch_user_11_offline :
  result (fetchUserById (NInt 11) offline_world idle) =
    Ok (Rejected (Some "User not found"%string) true "Rejected") /\
  trace (final (fetchUserById (NInt 11) offline_world idle)) =
    [EDispatch fetchUserById_pending; ETimeout 1000;
     EDispatch (fetchUserById_rejected (Some "User not found"%string))].
Proof.
  destruct (fetch_user_above_threshold 11 offline_world idle ltac:(lia))
    as [_ (s2 & Hrun & Htrace & _)].
  rewrite Hrun. split; [reflexivity | exact Htrace].
Defined.

Lemma getById_id (users : list User.t) (id : Z) (u : User.t) :
  Registry.getById users (NInt id) = Some u -> User.id u = NInt id.
Proof.
  unfold Registry.getById. intros H. apply find_some in H. destruct H as [_ H].
  destruct (User.id u) as [z|]; cbn in H; [|discriminate H].
  apply Z.eqb_eq in H. subst z. reflexivity.
Qed.

(** C2. For all integers id in [[1, 10]], [fetchUser(id)] succeeds: it
    returns a user record and never fails, in every world.  The record
    has [id] as its id: it is the stored record matching [id] that the
    registry answers with, or, when the call fails, the answer is not
    [ok] or does not parse, the record generated for [id]. *)
Theorem fetch_user_in_range (w : World) (s : St) (id : Z) :
  1 <= id <= 10 ->
  exists u s',
    mockApi.fetchUser (NInt id) w s = (Ok u, s') /\
    (forall users, served_by_registry users w -> User.id u = NInt id).
Proof.
  intros Hid.
  assert (Hle : num_gtb (NInt id) (NInt 10) = false) by (apply Z.ltb_ge; lia).
  destruct (fetchUser_below _ w s Hle) as (u & evs & d & t & Hrun & _ & Hsrc).
  exists u. eexists. split; [exact Hrun|].
  intros users Hreg.
  destruct Hsrc as [Hnet|[_ Hgen]]; [|exact Hgen].
  destruct (Hreg (fetches s) (NInt id)) as [Hserved|Hfail].
  - rewrite Hnet in Hserved. unfold Registry.GET_users_id in Hserved.
    destruct (Registry.getById users (NInt id)) as [u'|] eqn:Hget; [|discriminate Hserved].
    injection Hserved as ->. exact (getById_id users id u' Hget).
  - rewrite Hnet in Hfail. discriminate Hfail.
Qed.

(** User 5 is stored: the registry's record comes back.  User 3 is not:
    the answer is a 404 and the record is generated. *)
Lemma fetch_user_5_from_registry :
  (exists s', mockApi.fetchUser (NInt 5) registry_world idle = (Ok alex, s')) /\
  (exists u s', mockApi.fetchUser (NInt 3) registry_world idle = (Ok u, s') /\
                User.id u = NInt 3).
Proof.
  split.
  - eexists. reflexivity.
  - destruct (fetch_user_in_range registry_world idle 3 ltac:(lia)) as (u & s' & Hrun & Hid).
    exists u, s'. split; [exact Hrun | exact (Hid [alex] registry_world_served)].
Defined.

(** C4. For every input id, in every world, each thunk of the network
    layer settles in one of two shapes: [fulfilled] with a success value
    (a user record, a list of posts), or [rejected] with a message string
    as payload; neither payload creator lets an exception escape. *)
Theorem thunks_settle_in_two_shapes (id : Num) (w : World) (s : St) :
  two_shapes (fetchUserById id w s) /\
  two_shapes (fetchUserPosts id w s) /\
  (forall e s', fetchUserById_payloadCreator id w s <> (Throw e, s')) /\
  (forall e s', fetchUserPosts_payloadCreator id w s <> (Throw e, s')).
Proof.
  split; [|split; [|split]].
  - destruct (num_gtb id (NInt 10)) eqn:Hid.
    + right. rewrite (fetchUserById_above id w s Hid). eexists; eexists; reflexivity.
    + left. destruct (fetchUserById_below id w s Hid) as (u & s1 & evs & _ & Hrun & _).
      rewrite Hrun. eexists; eexists; reflexivity.
  - left. destruct (fetchUserPosts_thunk_run id w s) as (posts & s1 & evs & _ & Hrun & _).
    rewrite Hrun. eexists; eexists; reflexivity.
  - intros e s'. cbv [fetchUserById_payloadCreator try_catch bind ret message_of].
    destruct (num_gtb id (NInt 10)) eqn:Hid.
    + rewrite (fetchUser_above id w s Hid). discriminate.
    + destruct (fetchUser_below id w s Hid) as (u & evs & d & t & Hrun & _).
      rewrite Hrun. discriminate.
  - intros e s'. cbv [fetchUserPosts_payloadCreator try_catch bind ret message_of].
    destruct (fetchUserPosts_total id w s) as (posts & evs & d & t & Hrun & _).
    rewrite Hrun. discriminate.
Qed.

End NetworkLayer.


Section Fallback.

(** C5. When the live call fails or brings no data ([fetch] rejects, the
    response is not [ok], the body does not parse, or the posts list is
    empty) the layer answers with fixture data instead of failing:
    [fetchUser(id)], for [id] not above 10, returns what
    [generateMockUser(id)] returns (the request changed neither the
    store, nor the draws, nor the clock), and [fetchUserPosts(userId)]
    returns a non-empty list of generated posts, each owned by
    [userId]. *)
Theorem fallback_to_fixtures (w : World) (s : St) (id : Z) (userId : Num) :
  valid_world w ->
  (id <= 10 ->
   no_live_data (net_user w (fetches s) (NInt id)) = true ->
   exists s0 u s',
     store s0 = store s /\ draws s0 = draws s /\ ticks s0 = ticks s /\
     mockApi.fetchUser (NInt id) w s = generateMockUser (NInt id) w s0 /\
     generateMockUser (NInt id) w s0 = (Ok u, s') /\
     User.id u = NInt id) /\
  (no_live_posts (net_posts w (fetches s) userId) = true ->
   exists posts s',
     mockApi.fetchUserPosts userId w s = (Ok posts, s') /\
     posts <> [] /\
     Forall (fun p => Post.userId p = userId /\ generated_for userId w p) posts).
Proof.
  intros Hw. split.
  - intros Hid Hnet.
    assert (Hle : num_gtb (NInt id) (NInt 10) = false) by (apply Z.ltb_ge; lia).
    destruct (fetchUser_fallback _ w s Hle Hnet) as (evs & _ & Hrun).
    eexists; eexists; eexists. split; [|split; [|split; [|split; [exact Hrun|]]]].
    + reflexivity.
    + reflexivity.
    + reflexivity.
    + rewrite generateMockUser_run. split; reflexivity.
  - intros Hnet.
    destruct (fetchUserPosts_fallback userId w s Hw Hnet)
      as (evs & posts & _ & Hrun & Hlen & Hall).
    exists posts. eexists. split; [exact Hrun|]. split; [|exact Hall].
    destruct (Hw (draws s)) as [Hd _].
    assert (H53 : 1 <= 5 <= 2 ^ 53) by (change (2 ^ 53) with 9007199254740992; lia).
    pose proof (floor_mul_int_range _ 5 Hd H53) as Hf.
    intros ->. cbn in Hlen. lia.
Qed.

Lemma fallback_to_fixtures_offline :
  (exists u s', mockApi.fetchUser (NInt 3) offline_world idle = (Ok u, s') /\
                User.id u = NInt 3) /\
  (exists posts s', mockApi.fetchUserPosts (NInt 3) offline_world idle = (Ok posts, s') /\
                    posts <> []).
Proof.
  destruct (fallback_to_fixtures offline_world idle 3 (NInt 3) offline_world_valid)
    as [Huser Hposts].
  split.
  - destruct (Huser ltac:(lia) eq_refl) as (s0 & u & s' & _ & _ & _ & Hrun & Hgen & Hid).
    exists u, s'. split; [rewrite Hrun; exact Hgen | exact Hid].
  - destruct (Hposts eq_refl) as (posts & s' & Hrun & Hne & _).
    exists posts, s'. split; [exact Hrun | exact Hne].
Defined.

(** C9. The [posts] field of the user that [generateMockUser(id)]
    returns is an integer between 1 and 20, and the list of posts that
    [fetchUserPosts] generates when it falls back holds between 1 and 5
    posts. *)
Theorem random_counts_in_range (w : World) (s : St) (id : Z) (userId : Num) :
  valid_world w ->
  (exists u s' p,
     generateMockUser (NInt id) w s = (Ok u, s') /\
     User.posts u = Some p /\ 1 <= p <= 20) /\
  (no_live_posts (net_posts w (fetches s) userId) = true ->
   exists posts s',
     mockApi.fetchUserPosts userId w s = (Ok posts, s') /\
     1 <= Z.of_nat (List.length posts) <= 5).
Proof.
  intros Hw. destruct (Hw (draws s)) as [Hd _]. split.
  - rewrite generateMockUser_run. eexists; eexists; eexists.
    split; [reflexivity|]. cbn [User.posts]. split; [reflexivity|].
    apply (random_count_range _ 20 Hd). lia.
  - intros Hnet.
    destruct (fetchUserPosts_fallback userId w s Hw Hnet)
      as (evs & posts & _ & Hrun & Hlen & _).
    exists posts. eexists. split; [exact Hrun|].
    assert (H53 : 1 <= 5 <= 2 ^ 53) by (change (2 ^ 53) with 9007199254740992; lia).
    pose proof (floor_mul_int_range _ 5 Hd H53) as Hf. lia.
Qed.

Lemma random_counts_offline :
  (exists u s' p,
     generateMockUser (NInt 3) offline_world idle = (Ok u, s') /\
     User.posts u = Some p /\ 1 <= p <= 20) /\
  (exists posts s',
     mockApi.fetchUserPosts (NInt 3) offline_world idle = (Ok posts, s') /\
     1 <= Z.of_nat (List.length posts) <= 5).
Proof.
  destruct (random_counts_in_range offline_world idle 3 (NInt 3) offline_world_valid)
    as [Huser Hposts].
  split; [exact Huser | exact (Hposts eq_refl)].
Defined.

End Fallback.

Section Chain.

Variable parseInt : string -> Num.

(** C3. The chain of [handleFetchBoth].  With an empty input nothing
    happens.  Otherwise, if the fetch-user step fails, the handler logs
    the failure and stops: no effect of the fetch-posts operation is
    among the events of the run.  If it succeeds with the record [u], the
    fetch-posts thunk runs from the state the user step left, after the
    [fulfilled] action that carries [u] and with no effect of its own
    before it, and it is called with (and requests the posts of)
    [u.id]. *)
Theorem handleFetchBoth_chain (userId : string) (w : World) (s : St) :
  if (userId =? "")%string
  then handleFetchBoth parseInt userId w s = (Ok tt, s)
  else
    match unwrap (fetchUserById (parseInt userId)) w s with
    | (Throw e, su) =>
        exists evs,
          trace su = trace s ++ evs /\
          no_posts_events evs /\
          handleFetchBoth parseInt userId w s =
            (Ok tt, observed su [EConsoleError "Failed to fetch user:" e] 0) /\
          no_posts_events (evs ++ [EConsoleError "Failed to fetch user:" e])
    | (Ok u, su) =>
        exists evs evs',
          trace su = trace s ++ evs ++ [EDispatch (fetchUserById_fulfilled u)] /\
          no_posts_events evs /\
          handleFetchBoth parseInt userId w s =
            (Ok tt, final (fetchUserPosts (User.id u) w su)) /\
          trace (final (fetchUserPosts (User.id u) w su)) =
            trace su ++ EDispatch fetchUserPosts_pending :: ETimeout 800
              :: EFetch (PostsByUser (User.id u)) :: evs'
    end.
Proof.
  destruct (userId =? "")%string eqn:Hempty.
  - unfold handleFetchBoth. rewrite Hempty. reflexivity.
  - unfold handleFetchBoth. rewrite Hempty.
    set (id := parseInt userId).
    destruct (num_gtb id (NInt 10)) eqn:Hid.
    + cbv [unwrap bind try_catch]. rewrite (fetchUserById_above id w s Hid).
      cbv [throw console_error emit].
      exists [EDispatch fetchUserById_pending; ETimeout 1000;
              EDispatch (fetchUserById_rejected (Some "User not found"%string))].
      split; [|split; [|split]].
      * cbn [trace dispatched observed]. rewrite <- !app_assoc. reflexivity.
      * repeat constructor.
      * unfold observed. reflexivity.
      * repeat constructor.
    + destruct (fetchUserById_below id w s Hid) as (u & s1 & evs & _ & Hrun & Htrace & Hevs).
      cbv [unwrap bind try_catch]. rewrite Hrun. cbv [ret].
      destruct (fetchUserPosts_thunk_run (User.id u) w (dispatched (fetchUserById_fulfilled u) s1))
        as (posts & s2 & evs' & _ & Hposts & Htrace').
      rewrite Hposts. cbn [final snd].
      exists (EDispatch fetchUserById_pending :: ETimeout 1000 :: EFetch (UsersById id) :: evs).
      eexists.
      split; [|split; [|split]].
      * cbn [trace dispatched]. rewrite Htrace. rewrite <- !app_assoc. reflexivity.
      * destruct Hevs as [-> | ->]; repeat constructor.
      * reflexivity.
      * cbn [trace dispatched]. cbn [trace dispatched] in Htrace'. rewrite Htrace'.
        rewrite <- !app_assoc. cbn [app]. reflexivity.
Qed.

End Chain.

(** User 11 with no server: the chain stops after the user step, and
    nothing of the run belongs to the fetch-posts operation. *)
Lemma handleFetchBoth_chain_at_11 :
  exists evs,
    trace (final (handleFetchBoth (fun _ => NInt 11) "11" offline_world idle)) = evs /\
    no_posts_events evs.
Proof.
  pose proof (handleFetchBoth_chain (fun _ => NInt 11) "11" offline_world idle) as H.
  change (("11" =? "")%string) with false in H. cbv beta iota in H.
  remember (unwrap (fetchUserById (NInt 11)) offline_world idle) as r eqn:E.
  vm_compute in E. subst r. cbv iota in H.
  destruct H as (evs & Htrace & _ & Hrun & Hnone).
  rewrite Hrun. cbn [final snd observed trace].
  cbn [trace app] in Htrace. rewrite Htrace.
  eexists. split; [reflexivity | exact Hnone].
Defined.

(* ================================================================== *)
(** * Further properties of the code *)
(* ================================================================== *)

(** ** Worlds of the further examples *)

Section MoreWorlds.

Lemma live_world_valid : valid_world live_world.
Proof.
  intros n. split; [|apply mod_time_valid].
  unfold valid_draw, live_world; cbn [random mant expo].
  change (2 ^ 53) with 9007199254740992. change (2 ^ 52) with 4503599627370496. lia.
Qed.

Lemma steady_world_valid : valid_world steady_world.
Proof.
  intros n. split.
  - unfold valid_draw, steady_world; cbn [random mant expo].
    pose proof (Nat.mod_upper_bound n 2 ltac:(discriminate)).
    change (2 ^ 53) with 9007199254740992. change (2 ^ 52) with 4503599627370496. lia.
  - unfold valid_time, steady_world; cbn [clock]. lia.
Qed.


Lemma steady_world_after_epoch : clock_after_epoch steady_world.
Proof. intros n. unfold steady_world; cbn [clock]. lia. Qed.

End MoreWorlds.

(** ** Error simulation *)

Section SimulateError.

(** Comparing at any common exponent below both gives the same answer. *)
Lemma dyadic_ltb_at (a b : Dyadic) (e : Z) :
  e <= expo a -> e <= expo b ->
  dyadic_ltb a b = (mant a * 2 ^ (expo a - e) <? mant b * 2 ^ (expo b - e)).
Proof.
  intros Ha Hb. unfold dyadic_ltb.
  set (m := Z.min (expo a) (expo b)).
  assert (Hm : e <= m) by (unfold m; lia).
  assert (Hma : m <= expo a) by (unfold m; lia).
  assert (Hmb : m <= expo b) by (unfold m; lia).
  replace (expo a - e) with ((expo a - m) + (m - e)) by lia.
  replace (expo b - e) with ((expo b - m) + (m - e)) by lia.
  rewrite !Z.pow_add_r by lia.
  assert (Hp : 0 < 2 ^ (m - e)) by (apply Z.pow_pos_nonneg; lia).
  rewrite !Z.mul_assoc.
  destruct (mant a * 2 ^ (expo a - m) <? mant b * 2 ^ (expo b - m)) eqn:E;
    symmetry; [apply Z.ltb_lt; apply Z.ltb_lt in E | apply Z.ltb_ge; apply Z.ltb_ge in E]; nia.
Qed.

Lemma dyadic_leb_at (a b : Dyadic) (e : Z) :
  e <= expo a -> e <= expo b ->
  dyadic_leb a b = (mant a * 2 ^ (expo a - e) <=? mant b * 2 ^ (expo b - e)).
Proof.
  intros Ha Hb. unfold dyadic_leb.
  set (m := Z.min (expo a) (expo b)).
  assert (Hm : e <= m) by (unfold m; lia).
  assert (Hma : m <= expo a) by (unfold m; lia).
  assert (Hmb : m <= expo b) by (unfold m; lia).
  replace (expo a - e) with ((expo a - m) + (m - e)) by lia.
  replace (expo b - e) with ((expo b - m) + (m - e)) by lia.
  rewrite !Z.pow_add_r by lia.
  assert (Hp : 0 < 2 ^ (m - e)) by (apply Z.pow_pos_nonneg; lia).
  rewrite !Z.mul_assoc.
  destruct (mant a * 2 ^ (expo a - m) <=? mant b * 2 ^ (expo b - m)) eqn:E;
    symmetry; [apply Z.leb_le; apply Z.leb_le in E | apply Z.leb_gt; apply Z.leb_gt in E]; nia.
Qed.

Lemma dyadic_lt_le_trans (a b c : Dyadic) :
  dyadic_ltb a b = true -> dyadic_leb b c = true -> dyadic_ltb a c = true.
Proof.
  set (e := Z.min (expo a) (Z.min (expo b) (expo c))).
  rewrite (dyadic_ltb_at a b e), (dyadic_leb_at b c e), (dyadic_ltb_at a c e)
    by (unfold e; lia).
  intros H1 H2. apply Z.ltb_lt in H1. apply Z.leb_le in H2. apply Z.ltb_lt. lia.
Qed.

Lemma simulateError_run (errorRate : option Dyadic) (w : World) (s : St) :
  simulateError errorRate w s =
  (Ok (dyadic_ltb (random w (draws s))
         match errorRate with Some r => r | None => one_tenth end),
   mkSt (store s) (trace s) (fetches s) (S (draws s)) (ticks s)).
Proof. reflexivity. Qed.

(** A draw is below 1 and not below 0. *)
Lemma draw_below_one (d : Dyadic) : valid_draw d -> dyadic_ltb d one = true.
Proof.
  intros [[Hm0 Hm1] [He0 He1]].
  rewrite (dyadic_ltb_at d one (expo d)) by (cbn; lia).
  cbn [mant expo one]. rewrite Z.sub_diag, Z.mul_1_r, Z.mul_1_l.
  apply Z.ltb_lt.
  assert (2 ^ 53 <= 2 ^ (0 - expo d)) by (apply Z.pow_le_mono_r; lia). lia.
Qed.

(** X1. In a world that can occur, [simulateError(rate)] never reports
    an error when [rate] is zero or negative, and always reports one when
    [rate] is at least 1. *)
Theorem simulateError_extremes (rate : Dyadic) (w : World) (s : St) :
  valid_world w ->
  (mant rate <= 0 -> result (simulateError (Some rate) w s) = Ok false) /\
  (dyadic_leb one rate = true -> result (simulateError (Some rate) w s) = Ok true).
Proof.
  intros Hw. destruct (Hw (draws s)) as [Hd _]. rewrite simulateError_run. cbn [result fst].
  split.
  - intros Hrate. f_equal. unfold dyadic_ltb. apply Z.ltb_ge.
    destruct Hd as [[Hm0 _] _].
    set (e := Z.min (expo (random w (draws s))) (expo rate)).
    assert (0 < 2 ^ (expo rate - e)) by (apply Z.pow_pos_nonneg; unfold e; lia).
    assert (0 < 2 ^ (expo (random w (draws s)) - e)) by (apply Z.pow_pos_nonneg; unfold e; lia).
    nia.
  - intros Hrate. f_equal.
    exact (dyadic_lt_le_trans _ one rate (draw_below_one _ Hd) Hrate).
Qed.

Lemma simulateError_extremes_steady :
  result (simulateError (Some (mkDyadic 0 0)) steady_world idle) = Ok false /\
  result (simulateError (Some (mkDyadic 3 (-1))) steady_world idle) = Ok true.
Proof.
  split.
  - apply (simulateError_extremes (mkDyadic 0 0) steady_world idle steady_world_valid).
    cbn. lia.
  - apply (simulateError_extremes (mkDyadic 3 (-1)) steady_world idle steady_world_valid).
    reflexivity.
Defined.

(** X2. [simulateError] is monotone in its rate: with the same draw, a
    call that reports an error still reports one at any rate that is at
    least as large; a call without argument counts with the default
    rate 0.1. *)
Theorem simulateError_monotone (r1 r2 : option Dyadic) (w : World) (s : St) :
  dyadic_leb match r1 with Some r => r | None => one_tenth end
             match r2 with Some r => r | None => one_tenth end = true ->
  result (simulateError r1 w s) = Ok true ->
  result (simulateError r2 w s) = Ok true.
Proof.
  intros Hle. rewrite !simulateError_run. cbn [result fst].
  intros H. injection H as H. f_equal.
  exact (dyadic_lt_le_trans _ _ _ H Hle).
Qed.

Lemma simulateError_monotone_default :
  result (simulateError (Some (mkDyadic 1 (-1))) steady_world idle) = Ok true.
Proof.
  apply (simulateError_monotone None (Some (mkDyadic 1 (-1))) steady_world idle);
    reflexivity.
Defined.

End SimulateError.

(** ** Generated posts *)

Section GeneratedPosts.

(** X3. [generateMockPost(userId, postId)] keeps both ids as given.  For
    a [postId] that is non-negative (or a multiple of 5) its title and
    its body are the pool entries at the same index, [postId] modulo 5;
    for any other [postId] both are [undefined]. *)
Theorem generateMockPost_pool (userId : Num) (postId : Z) (w : World) (s : St) :
  exists p s',
    generateMockPost userId (NInt postId) w s = (Ok p, s') /\
    Post.id p = NInt postId /\
    Post.userId p = userId /\
    (0 <= postId \/ Z.rem postId 5 = 0 ->
     exists t b,
       nth_error titles (Z.to_nat (postId mod 5)) = Some t /\
       nth_error bodies (Z.to_nat (postId mod 5)) = Some b /\
       Post.title p = Some t /\ Post.body p = Some b) /\
    (postId < 0 -> Z.rem postId 5 <> 0 ->
     Post.title p = None /\ Post.body p = None).
Proof.
  rewrite generateMockPost_run. eexists; eexists. split; [reflexivity|].
  cbn [Post.id Post.userId Post.title Post.body].
  split; [reflexivity|]. split; [reflexivity|].
  change (len titles) with (NInt 5). change (len bodies) with (NInt 5).
  cbn [num_rem]. change (5 =? 0) with false. cbv iota.
  split.
  - intros H. destruct (rem5_cases postId H) as [Hr Hc]. rewrite Hr.
    destruct Hc as [E|[E|[E|[E|E]]]]; rewrite E;
      (eexists; eexists; repeat split; reflexivity).
  - intros H1 H2. pose proof (negative_rem5 postId H1 H2) as Hn.
    unfold index. apply Z.ltb_lt in Hn. rewrite Hn. split; reflexivity.
Qed.

Lemma generateMockPost_pool_at_12 :
  exists p s',
    generateMockPost (NInt 3) (NInt 12) steady_world idle = (Ok p, s') /\
    Post.title p = Some "Building Modern Web Apps"%string /\
    Post.body p = Some "A deep dive into modern development techniques..."%string.
Proof.
  destruct (generateMockPost_pool (NInt 3) 12 steady_world idle)
    as (p & s' & Hrun & _ & _ & Hpool & _).
  exists p, s'. split; [exact Hrun|].
  destruct (Hpool ltac:(left; lia)) as (t & b & Ht & Hb & Htitle & Hbody).
  vm_compute in Ht. vm_compute in Hb. injection Ht as <-. injection Hb as <-.
  split; [exact Htitle | exact Hbody].
Defined.

(** The loop, round by round. *)
Lemma push_posts_explicit (w : World) (userId : Num) (postCount : Z) :
  postCount < 2 ^ 52 ->
  forall (fuel : nat) (i : Z) (posts : list Post.t) (s : St),
    0 <= i -> i + Z.of_nat fuel = postCount + 1 ->
    mockApi.push_posts fuel userId postCount i posts w s =
    (Ok (posts ++ map (fixture_post w userId (ticks s) i) (seq 0 fuel)),
     mkSt (store s) (trace s) (fetches s) (draws s) (2 * fuel + ticks s)).
Proof.
  intros Hpc. induction fuel as [|fuel IH]; intros i posts s Hi Hfuel.
  - cbn. rewrite app_nil_r. destruct s; reflexivity.
  - cbn [mockApi.push_posts].
    assert (Hle : (i <=? postCount) = true) by (apply Z.leb_le; lia).
    rewrite Hle.
    assert (Hinc : js_add i 1 = i + 1).
    { apply js_add_exact. change (2 ^ 52) with 4503599627370496 in Hpc.
      change (2 ^ 53) with 9007199254740992. lia. }
    cbv [bind Date_now]. rewrite generateMockPost_run. cbn [store trace fetches draws ticks].
    rewrite Hinc. rewrite IH by lia. cbn [store trace fetches draws ticks].
    f_equal.
    + f_equal. rewrite <- app_assoc. f_equal. cbn [app seq map].
      f_equal.
      * unfold fixture_post. rewrite Nat.mul_0_r, Nat.add_0_r, Z.add_0_r. reflexivity.
      * rewrite <- seq_shift, map_map. apply map_ext. intros j.
        unfold fixture_post.
        replace (S (S (ticks s)) + 2 * j)%nat with (ticks s + 2 * S j)%nat by lia.
        replace (i + 1 + Z.of_nat j) with (i + Z.of_nat (S j)) by lia.
        reflexivity.
    + f_equal. lia.
Qed.

(** The fallback of [mockApi.fetchUserPosts], spelled out. *)
Lemma fetchUserPosts_fallback_explicit (userId : Num) (w : World) (s : St) :
  valid_world w ->
  no_live_posts (net_posts w (fetches s) userId) = true ->
  exists s',
    mockApi.fetchUserPosts userId w s =
    (Ok (map (fixture_post w userId (ticks s) 1)
             (seq 0 (Z.to_nat (floor (mul_int (random w (draws s)) 5) + 1)))), s') /\
    0 <= floor (mul_int (random w (draws s)) 5) < 5.
Proof.
  intros Hw Hnet. destruct (Hw (draws s)) as [Hd _].
  destruct (random_count_range _ 5 Hd ltac:(lia)) as [Hrange Hexact].
  rewrite <- Hexact.
  set (postCount := js_add (floor (mul_int (random w (draws s)) 5)) 1) in *.
  assert (Hpc : postCount < 2 ^ 52) by (change (2 ^ 52) with 4503599627370496; lia).
  assert (Hloop : forall s0, ticks s0 = ticks s ->
             mockApi.push_posts (Z.to_nat postCount) userId postCount 1 [] w s0 =
             (Ok (map (fixture_post w userId (ticks s) 1) (seq 0 (Z.to_nat postCount))),
              mkSt (store s0) (trace s0) (fetches s0) (draws s0)
                   (2 * Z.to_nat postCount + ticks s0))).
  { intros s0 Ht. rewrite (push_posts_explicit w userId postCount Hpc) by lia.
    rewrite Ht. reflexivity. }
  cbv [mockApi.fetchUserPosts bind try_catch sleep emit console_log fetch json ret throw Math_random].
  cbn [ok body store trace fetches draws ticks].
  destruct (net_posts w (fetches s) userId) as [msg|[[|] [[|p ps]|]]];
    cbn in Hnet; try discriminate Hnet; cbn;
    fold postCount; rewrite Hloop by reflexivity; (eexists; split; [reflexivity | lia]).
Qed.

End GeneratedPosts.

Section FallbackPosts.





(** The pools have an entry at every index that a non-negative id
    gives. *)
Lemma titles_bodies_at (z : Z) :
  0 <= z \/ Z.rem z 5 = 0 ->
  exists t b,
    nth_error titles (Z.to_nat (z mod 5)) = Some t /\
    nth_error bodies (Z.to_nat (z mod 5)) = Some b /\
    index titles (num_rem (NInt z) (len titles)) = Some t /\
    index bodies (num_rem (NInt z) (len bodies)) = Some b.
Proof.
  intros H.
  change (len titles) with (NInt 5). change (len bodies) with (NInt 5).
  cbn [num_rem]. change (5 =? 0) with false. cbv iota.
  destruct (rem5_cases z H) as [Hr Hc]. rewrite Hr.
  destruct Hc as [E|[E|[E|[E|E]]]]; rewrite E;
    (eexists; eexists; repeat split; reflexivity).
Qed.

(** X5. When the posts are generated and the clock is past the epoch,
    every post has a title and a body, both taken from the pools. *)
Theorem fallback_posts_have_text (userId : Num) (w : World) (s : St) :
  valid_world w ->
  clock_after_epoch w ->
  no_live_posts (net_posts w (fetches s) userId) = true ->
  exists posts s',
    mockApi.fetchUserPosts userId w s = (Ok posts, s') /\
    Forall (fun p => exists t b,
                Post.title p = Some t /\ In t titles /\
                Post.body p = Some b /\ In b bodies) posts.
Proof.
  intros Hw Hepoch Hnet.
  destruct (fetchUserPosts_fallback_explicit userId w s Hw Hnet) as (s' & Hrun & Hcount).
  eexists; exists s'. split; [exact Hrun|].
  apply Forall_forall. intros p Hp. apply in_map_iff in Hp. destruct Hp as (j & <- & Hj).
  apply in_seq in Hj.
  unfold fixture_post. cbn [Post.title Post.body].
  destruct (Hw (ticks s + 2 * j)%nat) as [_ Ht]. unfold valid_time in Ht.
  pose proof (Hepoch (ticks s + 2 * j)%nat) as H0.
  rewrite js_add_exact by (change (2 ^ 53) with 9007199254740992; lia).
  destruct (titles_bodies_at (clock w (ticks s + 2 * j) + (1 + Z.of_nat j)) ltac:(left; lia))
    as (t & b & Ht1 & Hb1 & Ht2 & Hb2).
  exists t, b. rewrite Ht2, Hb2.
  repeat split; [exact (nth_error_In _ _ Ht1) | exact (nth_error_In _ _ Hb1)].
Qed.

Lemma fallback_posts_have_text_steady :
  exists posts s',
    mockApi.fetchUserPosts (NInt 3) steady_world idle = (Ok posts, s') /\
    Forall (fun p => exists t b,
                Post.title p = Some t /\ In t titles /\
                Post.body p = Some b /\ In b bodies) posts.
Proof.
  exact (fallback_posts_have_text (NInt 3) steady_world idle
           steady_world_valid steady_world_after_epoch eq_refl).
Defined.

(** Live or generated, the list has a post. *)
Lemma api_posts_nonempty (userId : Num) (w : World) (s : St) :
  valid_world w ->
  exists posts s',
    mockApi.fetchUserPosts userId w s = (Ok posts, s') /\ posts <> [].
Proof.
  intros Hw.
  destruct (live_posts_or_not (net_posts w (fetches s) userId)) as [(posts & Hne & Hnet)|Hnet].
  - exists posts. eexists. split; [exact (fetchUserPosts_live userId w s posts Hnet Hne)|exact Hne].
  - destruct (fetchUserPosts_fallback userId w s Hw Hnet)
      as (evs & posts & _ & Hrun & Hlen & _).
    exists posts. eexists. split; [exact Hrun|].
    destruct (Hw (draws s)) as [Hd _].
    assert (H53 : 1 <= 5 <= 2 ^ 53) by (change (2 ^ 53) with 9007199254740992; lia).
    pose proof (floor_mul_int_range _ 5 Hd H53) as Hf.
    intros ->. cbn in Hlen. lia.
Qed.

(** X6. In a world that can occur, [mockApi.fetchUserPosts] returns a
    non-empty list for every [userId], and when the live call had data
    that list is the server's. *)
Theorem fetchUserPosts_never_empty (userId : Num) (w : World) (s : St) :
  valid_world w ->
  exists posts s',
    mockApi.fetchUserPosts userId w s = (Ok posts, s') /\
    posts <> [] /\
    (no_live_posts (net_posts w (fetches s) userId) = false ->
     net_posts w (fetches s) userId = Answered (mkResponse true (Some posts))).
Proof.
  intros Hw.
  destruct (api_posts_nonempty userId w s Hw) as (posts & s' & Hrun & Hne).
  exists posts, s'. split; [exact Hrun|]. split; [exact Hne|].
  intros Hlive.
  destruct (live_posts_or_not (net_posts w (fetches s) userId)) as [(ps & Hps & Hnet)|Hnet].
  - rewrite (fetchUserPosts_live userId w s ps Hnet Hps) in Hrun.
    injection Hrun as <- _. exact Hnet.
  - rewrite Hnet in Hlive. discriminate Hlive.
Qed.

Lemma fetchUserPosts_never_empty_live :
  exists posts s',
    mockApi.fetchUserPosts (NInt 7) live_world idle = (Ok posts, s') /\ posts <> [].
Proof.
  destruct (fetchUserPosts_never_empty (NInt 7) live_world idle live_world_valid)
    as (posts & s' & Hrun & Hne & _).
  exists posts, s'. split; [exact Hrun | exact Hne].
Defined.

(** X7. A live answer is returned as sent and nothing is generated: for
    an id not above 10, [mockApi.fetchUser] returns the record of an [ok]
    answer whatever that record's id, and [mockApi.fetchUserPosts]
    returns a non-empty list of an [ok] answer whoever owns its posts;
    neither draws a random number nor reads the clock. *)
Theorem live_answers_pass_through (w : World) (s : St) :
  (forall id u,
     num_gtb id (NInt 10) = false ->
     net_user w (fetches s) id = Answered (mkResponse true (Some u)) ->
     exists s',
       mockApi.fetchUser id w s = (Ok u, s') /\
       draws s' = draws s /\ ticks s' = ticks s) /\
  (forall userId posts,
     net_posts w (fetches s) userId = Answered (mkResponse true (Some posts)) ->
     posts <> [] ->
     exists s',
       mockApi.fetchUserPosts userId w s = (Ok posts, s') /\
       draws s' = draws s /\ ticks s' = ticks s).
Proof.
  split.
  - intros id u Hid Hnet. rewrite (fetchUser_live id w s u Hid Hnet).
    eexists. split; [reflexivity|]. split; reflexivity.
  - intros userId posts Hnet Hne. rewrite (fetchUserPosts_live userId w s posts Hnet Hne).
    eexists. split; [reflexivity|]. split; reflexivity.
Qed.

Lemma live_answers_pass_through_other_ids :
  (exists s', mockApi.fetchUser (NInt 3) live_world idle = (Ok sam, s')) /\
  (exists s', mockApi.fetchUserPosts (NInt 7) live_world idle = (Ok stored_posts, s')).
Proof.
  destruct (live_answers_pass_through live_world idle) as [Huser Hposts].
  split.
  - destruct (Huser (NInt 3) sam eq_refl eq_refl) as (s' & Hrun & _).
    exists s'. exact Hrun.
  - destruct (Hposts (NInt 7) stored_posts eq_refl ltac:(discriminate)) as (s' & Hrun & _).
    exists s'. exact Hrun.
Defined.

End FallbackPosts.

(** ** The store after a thunk *)

Section StoreAfterThunks.

Ltac run_thunk' :=
  cbv [fetchUserById fetchUserPosts createAsyncThunk settle dispatch
       fetchUserById_payloadCreator fetchUserPosts_payloadCreator
       bind try_catch ret throw message_of unwrap];
  cbn [store trace fetches draws ticks].

(** The user thunk, with the state it leaves. *)
Lemma fetchUserById_final (id : Num) (w : World) (s : St) :
  if num_gtb id (NInt 10)
  then fetchUserById id w s =
       (Ok (Rejected (Some "User not found"%string) true "Rejected"),
        mkSt (reducer (reducer (store s) fetchUserById_pending)
                      (fetchUserById_rejected (Some "User not found"%string)))
             (trace s ++ [EDispatch fetchUserById_pending; ETimeout 1000;
                          EDispatch (fetchUserById_rejected (Some "User not found"%string))])
             (fetches s) (draws s) (ticks s))
  else exists u evs d t,
       fetchUserById id w s =
       (Ok (Fulfilled u),
        mkSt (reducer (reducer (store s) fetchUserById_pending) (fetchUserById_fulfilled u))
             (trace s ++ EDispatch fetchUserById_pending :: ETimeout 1000
                :: EFetch (UsersById id) :: evs ++ [EDispatch (fetchUserById_fulfilled u)])
             (S (fetches s)) d t) /\
       (evs = [] \/ evs = [EConsoleLog "Using generated mock data"]) /\
       (net_user w (fetches s) id = Answered (mkResponse true (Some u)) \/
        no_live_data (net_user w (fetches s) id) = true /\ User.id u = id).
Proof.
  destruct (num_gtb id (NInt 10)) eqn:Hid.
  - rewrite (fetchUserById_above id w s Hid).
    unfold dispatched, observed. cbn [store trace fetches draws ticks].
    rewrite <- !app_assoc. reflexivity.
  - destruct (fetchUser_below id w (dispatched fetchUserById_pending s) Hid)
      as (u & evs & d & t & Hrun & Hevs & Hsrc).
    exists u, evs, d, t. split; [|split; [exact Hevs | exact Hsrc]].
    run_thunk'. fold (dispatched fetchUserById_pending s). rewrite Hrun.
    cbn [dispatched store trace fetches draws ticks].
    rewrite <- !app_assoc. reflexivity.
Qed.

(** The posts thunk, with the state it leaves. *)
Lemma fetchUserPosts_final (userId : Num) (w : World) (s : St) :
  exists posts evs d t,
    fetchUserPosts userId w s =
    (Ok (Fulfilled posts),
     mkSt (reducer (reducer (store s) fetchUserPosts_pending) (fetchUserPosts_fulfilled posts))
          (trace s ++ EDispatch fetchUserPosts_pending :: ETimeout 800
             :: EFetch (PostsByUser userId) :: evs ++ [EDispatch (fetchUserPosts_fulfilled posts)])
          (S (fetches s)) d t) /\
    result (mockApi.fetchUserPosts userId w (dispatched fetchUserPosts_pending s)) = Ok posts.
Proof.
  destruct (fetchUserPosts_total userId w (dispatched fetchUserPosts_pending s))
    as (posts & evs & d & t & Hrun & _).
  exists posts, evs, d, t. split; [|rewrite Hrun; reflexivity].
  run_thunk'. fold (dispatched fetchUserPosts_pending s). rewrite Hrun.
  cbn [dispatched store trace fetches draws ticks].
  rewrite <- !app_assoc. reflexivity.
Qed.

(** X8. In every world the [fetchUserById] thunk is rejected exactly when
    its argument is greater than 10 (NaN and every number up to 10 are
    fulfilled), and the [fetchUserPosts] thunk is never rejected. *)
Theorem fetchUserById_rejected_iff (id : Num) (w : World) (s : St) :
  is_rejected (result (fetchUserById id w s)) = num_gtb id (NInt 10) /\
  is_rejected (result (fetchUserPosts id w s)) = false.
Proof.
  split.
  - pose proof (fetchUserById_final id w s) as H.
    destruct (num_gtb id (NInt 10)).
    + rewrite H. reflexivity.
    + destruct H as (u & evs & d & t & H & _). rewrite H. reflexivity.
  - destruct (fetchUserPosts_final id w s) as (posts & evs & d & t & H & _).
    rewrite H. reflexivity.
Qed.

(** X9. After the [fetchUserById] thunk the slice is not loading.  If it
    was fulfilled, [currentUser] is its payload and [error] is null; if
    it was rejected, [error] is "User not found" and [currentUser] is
    left as it was.  [userPosts], [postsLoading] and [postsError] are
    untouched either way. *)
Theorem fetchUserById_store (id : Num) (w : World) (s : St) :
  match result (fetchUserById id w s) with
  | Ok (Fulfilled u) =>
      store (final (fetchUserById id w s)) =
      mkUsersState (Some u) (userPosts (store s)) false (postsLoading (store s))
                   None (postsError (store s))
  | Ok (Rejected payload _ _) =>
      payload = Some "User not found"%string /\
      store (final (fetchUserById id w s)) =
      mkUsersState (currentUser (store s)) (userPosts (store s)) false
                   (postsLoading (store s)) payload (postsError (store s))
  | Throw _ => False
  end.
Proof.
  pose proof (fetchUserById_final id w s) as H.
  destruct (num_gtb id (NInt 10)).
  - rewrite H. cbn [result final fst snd store]. split; reflexivity.
  - destruct H as (u & evs & d & t & H & _). rewrite H. reflexivity.
Qed.

(** X10. In a world that can occur, after the [fetchUserPosts] thunk
    [userPosts] is its non-empty payload, [postsLoading] is false and
    [postsError] is null; [currentUser], [loading] and [error] are
    untouched. *)
Theorem fetchUserPosts_store (userId : Num) (w : World) (s : St) :
  valid_world w ->
  exists posts,
    result (fetchUserPosts userId w s) = Ok (Fulfilled posts) /\
    posts <> [] /\
    store (final (fetchUserPosts userId w s)) =
    mkUsersState (currentUser (store s)) posts (loading (store s)) false
                 (error (store s)) None.
Proof.
  intros Hw.
  destruct (fetchUserPosts_final userId w s) as (posts & evs & d & t & H & Hapi).
  exists posts. rewrite H. split; [reflexivity|]. split; [|reflexivity].
  destruct (api_posts_nonempty userId w (dispatched fetchUserPosts_pending s) Hw)
    as (posts' & s' & Hrun & Hne).
  rewrite Hrun in Hapi. injection Hapi as <-. exact Hne.
Qed.

End StoreAfterThunks.

Section StoreWitnesses.

Lemma fetchUserPosts_store_steady :
  exists posts,
    posts <> [] /\
    store (final (fetchUserPosts (NInt 5) steady_world showing_alex)) =
    mkUsersState (Some alex) posts false false None None.
Proof.
  destruct (fetchUserPosts_store (NInt 5) steady_world showing_alex steady_world_valid)
    as (posts & _ & Hne & Hstore).
  exists posts. split; [exact Hne | exact Hstore].
Defined.

End StoreWitnesses.

(** ** The handlers *)

Section HandlersOfTheComponent.

Variable parseInt : string -> Num.

(** What "Fetch Both" leaves behind. *)
Lemma handleFetchBoth_outcome (userId : string) (w : World) (s : St) :
  valid_world w ->
  userId <> ""%string ->
  if num_gtb (parseInt userId) (NInt 10)
  then
    store (final (handleFetchBoth parseInt userId w s)) =
      mkUsersState (currentUser (store s)) (userPosts (store s)) false
                   (postsLoading (store s)) (Some "User not found"%string)
                   (postsError (store s)) /\
    fetches (final (handleFetchBoth parseInt userId w s)) = fetches s
  else
    exists u posts,
      posts <> [] /\
      store (final (handleFetchBoth parseInt userId w s)) =
        mkUsersState (Some u) posts false false None None /\
      fetches (final (handleFetchBoth parseInt userId w s)) = S (S (fetches s)).
Proof.
  intros Hw Hne. apply String.eqb_neq in Hne.
  unfold handleFetchBoth. rewrite Hne.
  set (id := parseInt userId).
  pose proof (fetchUserById_final id w s) as Huser.
  destruct (num_gtb id (NInt 10)).
  - cbv [unwrap bind try_catch]. rewrite Huser. cbv [throw console_error emit].
    cbn [final snd store fetches]. split; reflexivity.
  - destruct Huser as (u & evs & d & t & Hrun & _).
    cbv [unwrap bind try_catch]. rewrite Hrun. cbv [ret].
    match goal with
    | |- context [fetchUserPosts (User.id u) w ?s1] =>
        destruct (fetchUserPosts_final (User.id u) w s1) as (posts & evs' & d' & t' & Hposts & Hapi);
        destruct (api_posts_nonempty (User.id u) w (dispatched fetchUserPosts_pending s1) Hw)
          as (posts' & s' & Hrun' & Hnonempty)
    end.
    rewrite Hrun' in Hapi. injection Hapi as ->.
    rewrite Hposts. cbn [final snd store fetches].
    exists u, posts. split; [exact Hnonempty|]. split; reflexivity.
Qed.

(** X11. "Fetch Both" on a non-empty input, in a world that can occur.
    If the parsed id is above 10, the slice ends with the error "User not
    found", not loading, everything else as before, and no request was
    sent.  Otherwise it ends with a user, a non-empty list of posts, no
    error and nothing loading, after exactly two requests. *)
Theorem handleFetchBoth_store (userId : string) (w : World) (s : St) :
  valid_world w ->
  userId <> ""%string ->
  if num_gtb (parseInt userId) (NInt 10)
  then
    store (final (handleFetchBoth parseInt userId w s)) =
      mkUsersState (currentUser (store s)) (userPosts (store s)) false
                   (postsLoading (store s)) (Some "User not found"%string)
                   (postsError (store s)) /\
    fetches (final (handleFetchBoth parseInt userId w s)) = fetches s
  else
    exists u posts,
      posts <> [] /\
      store (final (handleFetchBoth parseInt userId w s)) =
        mkUsersState (Some u) posts false false None None /\
      fetches (final (handleFetchBoth parseInt userId w s)) = S (S (fetches s)).
Proof. exact (handleFetchBoth_outcome userId w s). Qed.

End HandlersOfTheComponent.

Section HandlersOnTheStore.

Lemma handleFetchBoth_store_steady :
  (exists u posts,
     posts <> [] /\
     store (final (handleFetchBoth (fun _ => NInt 3) "3" steady_world idle)) =
       mkUsersState (Some u) posts false false None None) /\
  store (final (handleFetchBoth (fun _ => NInt 11) "11" steady_world showing_alex)) =
    mkUsersState (Some alex) [] false false (Some "User not found"%string) None.
Proof.
  split.
  - destruct (handleFetchBoth_store (fun _ => NInt 3) "3"%string steady_world idle
                steady_world_valid ltac:(discriminate))
      as (u & posts & Hne & Hstore & _).
    exists u, posts. split; [exact Hne | exact Hstore].
  - exact (proj1 (handleFetchBoth_store (fun _ => NInt 11) "11"%string steady_world
                    showing_alex steady_world_valid ltac:(discriminate))).
Defined.




End HandlersOnTheStore.

(** ** Request URLs *)

Section Urls.






End Urls.

(** ** The remaining handlers *)

Section RemainingHandlers.

Variable parseInt : string -> Num.


(** X17. [handleClear] dispatches [clearUser] and hands the empty string
    to [setUserId].  The slice it leaves is the initial state exactly
    when no request was in flight; in particular "Clear All" after a
    "Fetch Both" that began with no posts request in flight brings the
    slice back to its initial state, whichever way the fetch ended. *)
Theorem handleClear_restores (userId : string) (w : World) (s : St) :
  handleClear w s =
    (Ok ""%string,
     mkSt (reducer (store s) clearUser) (trace s ++ [EDispatch clearUser])
          (fetches s) (draws s) (ticks s)) /\
  (store (final (handleClear w s)) = initialState <->
   loading (store s) = false /\ postsLoading (store s) = false) /\
  (valid_world w -> userId <> ""%string -> postsLoading (store s) = false ->
   store (final (handleClear w (final (handleFetchBoth parseInt userId w s)))) =
   initialState).
Proof.
  split; [reflexivity|]. split.
  - destruct s as [[cu ups ld pld err perr] tr f d t].
    cbn. unfold initialState. split.
    + intros H. injection H as -> ->. split; reflexivity.
    + intros [-> ->]. reflexivity.
  - intros Hw Hne Hpl.
    pose proof (handleFetchBoth_outcome parseInt userId w s Hw Hne) as H.
    destruct (num_gtb (parseInt userId) (NInt 10)).
    + destruct H as [Hstore _].
      change (store (final (handleClear w (final (handleFetchBoth parseInt userId w s)))))
        with (reducer (store (final (handleFetchBoth parseInt userId w s))) clearUser).
      rewrite Hstore, Hpl. reflexivity.
    + destruct H as (u & posts & _ & Hstore & _).
      change (store (final (handleClear w (final (handleFetchBoth parseInt userId w s)))))
        with (reducer (store (final (handleFetchBoth parseInt userId w s))) clearUser).
      rewrite Hstore. reflexivity.
Qed.

End RemainingHandlers.

Section RemainingHandlersExamples.


Lemma handleClear_restores_steady :
  store (final (handleClear steady_world
                  (final (handleFetchBoth (fun _ => NInt 3) "3" steady_world idle)))) =
  initialState.
Proof.
  exact (proj2 (proj2 (handleClear_restores (fun _ => NInt 3) "3"%string steady_world idle))
           steady_world_valid ltac:(discriminate) eq_refl).
Defined.

(** X18. [clearErrors] resets [error] and [postsError] and nothing else;
    it is idempotent and absorbed by [clearUser] on either side;
    [handleClearErrors] dispatches it. *)
Theorem clearErrors_frame (state : UsersState) :
  reducer state clearErrors =
    mkUsersState (currentUser state) (userPosts state) (loading state)
                 (postsLoading state) None None /\
  reducer (reducer state clearErrors) clearErrors = reducer state clearErrors /\
  reducer (reducer state clearUser) clearErrors = reducer state clearUser /\
  reducer (reducer state clearErrors) clearUser = reducer state clearUser /\
  (forall w s, store s = state ->
     handleClearErrors w s =
     (Ok tt, mkSt (reducer state clearErrors) (trace s ++ [EDispatch clearErrors])
                  (fetches s) (draws s) (ticks s))).
Proof.
  destruct state as [cu ups ld pld err perr].
  repeat split. intros w s Hs. unfold handleClearErrors, dispatch. rewrite Hs. reflexivity.
Qed.

End RemainingHandlersExamples.

Section Composition.

Variable parseInt : string -> Num.


End Composition.

Section CompositionExamples.


End CompositionExamples.

